(** * pi_python: the payment lifecycle of [PiNetwork], embedded and verified

    The development follows src/pi_python.py.  Python values are the
    JSON-shaped ones the client exchanges with the payment API (None,
    booleans, integers, text, lists, dictionaries with text keys, in insertion
    order); strings are ASCII text.  The [decimal] module, the ledger SDK and
    the HTTP client are libraries the class calls: their behaviour is taken
    through interfaces ([DecimalLib], [PyBuiltins], [World]), every call to the
    network is written to a log, and a Python exception is a [Raise] result
    that a [try]/[except Exception] block turns back into a value.  Calls to
    the logger are left out. *)

From stdpp Require Import base option list strings gmap pretty.
From Stdlib Require Import Ascii ZArith QArith Lia.

Set Default Proof Using "Type".
Open Scope string_scope.
Open Scope list_scope.
Open Scope Z_scope.

(** ** Python values *)

#[warnings="-register-all"]
Inductive PyVal : Type :=
| VNone
| VBool (b : bool)
| VInt (z : Z)
| VStr (s : string)
| VList (l : list PyVal)
| VDict (d : list (string * PyVal)).

(** Exceptions, all of them subclasses of [Exception].  [LibraryError] stands
    for whatever else a library raises (decimal.InvalidOperation, the SDK's
    own errors, ValueError, ...). *)
Inductive exn : Type :=
| PiNetworkError (msg : string)
| RequestException (msg : string)
| KeyError (key : string)
| TypeError
| AttributeError
| LibraryError (name : string).

Inductive Res (A : Type) : Type :=
| Ok (a : A)
| Raise (e : exn).
Arguments Ok {A} a.
Arguments Raise {A} e.

Definition res_bind {A B} (r : Res A) (k : A -> Res B) : Res B :=
  match r with
  | Ok a => k a
  | Raise e => Raise e
  end.

Declare Scope py_scope.
Delimit Scope py_scope with py.
Notation "'let?' x := c 'in' k" := (res_bind c (fun x => k))
  (at level 10, x name, c at level 100, k at level 200) : py_scope.
Open Scope py_scope.

(** [str(e)] of an exception, as far as the client uses it. *)
Definition exn_message (e : exn) : string :=
  match e with
  | PiNetworkError m => m
  | RequestException m => m
  | KeyError k => "'" +:+ k +:+ "'"
  | TypeError => "TypeError"
  | AttributeError => "AttributeError"
  | LibraryError n => n
  end.

Definition is_RequestException (e : exn) : bool :=
  match e with
  | RequestException _ => true
  | _ => false
  end.

(** ** Built-in operations on values *)

(** [bool(v)]. *)
Definition py_truthy (v : PyVal) : bool :=
  match v with
  | VNone => false
  | VBool b => b
  | VInt z => negb (z =? 0)
  | VStr s => negb (String.eqb s "")
  | VList l => match l with [] => false | _ => true end
  | VDict d => match d with [] => false | _ => true end
  end.

(** [a or b]. *)
Definition py_or (a b : PyVal) : PyVal := if py_truthy a then a else b.

Fixpoint dict_lookup (k : string) (d : list (string * PyVal)) : option PyVal :=
  match d with
  | [] => None
  | (k', v) :: rest => if String.eqb k k' then Some v else dict_lookup k rest
  end.

Definition dict_has (k : string) (d : list (string * PyVal)) : bool :=
  match dict_lookup k d with Some _ => true | None => false end.

Fixpoint is_substring (needle hay : string) : bool :=
  match hay with
  | EmptyString => String.eqb needle ""
  | String _ rest => String.prefix needle hay || is_substring needle rest
  end.

Definition is_VStr (k : string) (v : PyVal) : bool :=
  match v with
  | VStr s => String.eqb s k
  | _ => false
  end.

(** [k in v] for a text [k]: key membership in a dictionary, an equal element
    in a list, a substring of a text; a TypeError on anything else. *)
Definition py_in (k : string) (v : PyVal) : Res bool :=
  match v with
  | VDict d => Ok (dict_has k d)
  | VList l => Ok (existsb (is_VStr k) l)
  | VStr s => Ok (is_substring k s)
  | _ => Raise TypeError
  end.

(** [v[k]] for a text [k]. *)
Definition py_getitem (v : PyVal) (k : string) : Res PyVal :=
  match v with
  | VDict d => match dict_lookup k d with
               | Some x => Ok x
               | None => Raise (KeyError k)
               end
  | _ => Raise TypeError
  end.

(** [v.get(k, default)]: only dictionaries have the method. *)
Definition py_get (v : PyVal) (k : string) (default : PyVal) : Res PyVal :=
  match v with
  | VDict d => Ok (from_option id default (dict_lookup k d))
  | _ => Raise AttributeError
  end.

(** [iter(v)], as the [for] loop of [get_balance] uses it: the elements of a
    list, the keys of a dictionary, the characters of a text. *)
Fixpoint chars_of (s : string) : list PyVal :=
  match s with
  | EmptyString => []
  | String c rest => VStr (String c EmptyString) :: chars_of rest
  end.

Definition py_iter (v : PyVal) : Res (list PyVal) :=
  match v with
  | VList l => Ok l
  | VDict d => Ok (VStr <$> remove_dups (d.*1))
  | VStr s => Ok (chars_of s)
  | _ => Raise TypeError
  end.

(** [str(v)] of a list or a dictionary is built from [repr] of the elements;
    it is the interpreter's, and taken as given. *)
Class PyBuiltins := { str_container : PyVal -> string }.

Definition py_str `{PyBuiltins} (v : PyVal) : string :=
  match v with
  | VNone => "None"
  | VBool true => "True"
  | VBool false => "False"
  | VInt z => pretty z
  | VStr s => s
  | VList _ | VDict _ => str_container v
  end.

Definition ascii_upper (c : Ascii.ascii) : Ascii.ascii :=
  let n := Ascii.nat_of_ascii c in
  if ((97 <=? n) && (n <=? 122))%nat then Ascii.ascii_of_nat (n - 32) else c.

(** [s.upper()]. *)
Fixpoint upper (s : string) : string :=
  match s with
  | EmptyString => EmptyString
  | String c rest => String (ascii_upper c) (upper rest)
  end.

(** ** Dictionary keys

    The open-payment registry is a Python dict keyed by whatever the payment
    API gave as identifier.  Equal keys hash alike, so [True] and [1] are one
    key; lists and dictionaries are unhashable. *)
Inductive Key : Type :=
| KNone
| KInt (z : Z)
| KStr (s : string).

#[global] Instance Key_eq_dec : EqDecision Key.
Proof. solve_decision. Defined.

#[global] Instance Key_countable : Countable Key.
Proof.
  refine (inj_countable'
    (fun k => match k with
              | KNone => inl ()
              | KInt z => inr (inl z)
              | KStr s => inr (inr s)
              end)
    (fun x => match x with
              | inl _ => KNone
              | inr (inl z) => KInt z
              | inr (inr s) => KStr s
              end) _).
  intros []; reflexivity.
Defined.

Definition hash_key (v : PyVal) : Res Key :=
  match v with
  | VNone => Ok KNone
  | VBool b => Ok (KInt (if b then 1 else 0))
  | VInt z => Ok (KInt z)
  | VStr s => Ok (KStr s)
  | VList _ | VDict _ => Raise TypeError
  end.

(** ** The decimal module

    [Decimal] values and the four operations the client uses.  [dec_cmp] is
    the library's three-way comparison, on which [>] is defined; it raises on
    a NaN. *)
Class DecimalLib := {
  Dec : Type;
  dec_of_int : Z -> Dec;
  dec_of_str : string -> Res Dec;
  dec_of_seq : list PyVal -> Res Dec;
  dec_add : Dec -> Dec -> Res Dec;
  dec_div : Dec -> Dec -> Res Dec;
  dec_cmp : Dec -> Dec -> Res comparison
}.

Section Decimal.
Context `{DecimalLib}.

(** [Decimal(v)]. *)
Definition Decimal (v : PyVal) : Res Dec :=
  match v with
  | VInt z => Ok (dec_of_int z)
  | VBool b => Ok (dec_of_int (if b then 1 else 0))
  | VStr s => dec_of_str s
  | VList l => dec_of_seq l
  | VNone | VDict _ => Raise TypeError
  end.

(** [a > b]. *)
Definition dec_gt (a b : Dec) : Res bool :=
  let? c := dec_cmp a b in
  Ok (match c with Gt => true | _ => false end).

(** [Decimal(amount) + (Decimal(fee) / Decimal('10000000'))], operands
    evaluated left to right. *)
Definition total_cost (amount : PyVal) (fee : Z) : Res Dec :=
  let? a := Decimal amount in
  let f := dec_of_int fee in
  let? scale := dec_of_str "10000000" in
  let? q := dec_div f scale in
  dec_add a q.
End Decimal.

(** ** The ledger SDK's data *)

Record Keypair := { secret_seed : string; public_key : string }.
Record Server := { horizon_url : string }.
Record Account := { account_id : string; sequence : Z }.

Inductive Asset := Native.
Inductive Memo := TextMemo (text : PyVal).
Inductive Operation := Payment (destination : PyVal) (asset : Asset) (amount : string).

(** What [TransactionBuilder] has been given so far. *)
Record TransactionBuilder := {
  source_account : option Account;
  network_passphrase : string;
  base_fee : Z;
  memo : option Memo;
  operations : list Operation;
  timeout : option Z
}.

(** What [build()] returns and [sign] extends. *)
Record Transaction := {
  tx_source : string;
  tx_sequence : Z;
  tx_network_passphrase : string;
  tx_base_fee : Z;
  tx_memo : option Memo;
  tx_operations : list Operation;
  tx_timeout : option Z;
  tx_signers : list Keypair
}.

Record Request := {
  method : string;
  url : string;
  json : option PyVal;
  headers : list (string * string)
}.

(** ** The session object *)

Record PiNetwork := {
  _api_key : string;
  _server : option Server;
  _account : option Account;
  _base_url : string;
  _network : string;
  _keypair : option Keypair;
  _fee : Z;
  _open_payments : gmap Key PyVal
}.

Definition MAINNET_URL : string := "https://api.mainnet.minepi.com".
Definition TESTNET_URL : string := "https://api.testnet.minepi.com".

(** [PiNetwork.__init__]. *)
Definition __init__ : PiNetwork :=
  {| _api_key := ""; _server := None; _account := None; _base_url := "";
     _network := ""; _keypair := None; _fee := 0; _open_payments := ∅ |}.

Definition set_api_key (v : string) (p : PiNetwork) : PiNetwork :=
  {| _api_key := v; _server := _server p; _account := _account p;
     _base_url := _base_url p; _network := _network p; _keypair := _keypair p;
     _fee := _fee p; _open_payments := _open_payments p |}.
Definition set_server (v : option Server) (p : PiNetwork) : PiNetwork :=
  {| _api_key := _api_key p; _server := v; _account := _account p;
     _base_url := _base_url p; _network := _network p; _keypair := _keypair p;
     _fee := _fee p; _open_payments := _open_payments p |}.
Definition set_account (v : option Account) (p : PiNetwork) : PiNetwork :=
  {| _api_key := _api_key p; _server := _server p; _account := v;
     _base_url := _base_url p; _network := _network p; _keypair := _keypair p;
     _fee := _fee p; _open_payments := _open_payments p |}.
Definition set_base_url (v : string) (p : PiNetwork) : PiNetwork :=
  {| _api_key := _api_key p; _server := _server p; _account := _account p;
     _base_url := v; _network := _network p; _keypair := _keypair p;
     _fee := _fee p; _open_payments := _open_payments p |}.
Definition set_network (v : string) (p : PiNetwork) : PiNetwork :=
  {| _api_key := _api_key p; _server := _server p; _account := _account p;
     _base_url := _base_url p; _network := v; _keypair := _keypair p;
     _fee := _fee p; _open_payments := _open_payments p |}.
Definition set_keypair (v : option Keypair) (p : PiNetwork) : PiNetwork :=
  {| _api_key := _api_key p; _server := _server p; _account := _account p;
     _base_url := _base_url p; _network := _network p; _keypair := v;
     _fee := _fee p; _open_payments := _open_payments p |}.
Definition set_fee (v : Z) (p : PiNetwork) : PiNetwork :=
  {| _api_key := _api_key p; _server := _server p; _account := _account p;
     _base_url := _base_url p; _network := _network p; _keypair := _keypair p;
     _fee := v; _open_payments := _open_payments p |}.
Definition set_open_payments (v : gmap Key PyVal) (p : PiNetwork) : PiNetwork :=
  {| _api_key := _api_key p; _server := _server p; _account := _account p;
     _base_url := _base_url p; _network := _network p; _keypair := _keypair p;
     _fee := _fee p; _open_payments := v |}.

(** ** The world outside

    One answer per call a method can make: the SDK's key derivation, the
    ledger node, the payment API.  [requests_request] stands for
    [requests.request(...)], [raise_for_status()] and [json()] together;
    [sdk_rejects] for every check the builder chain makes on its arguments. *)
Record World := {
  Keypair_from_secret : string -> Res Keypair;
  server_load_account : Server -> string -> Res Account;
  server_fetch_base_fee : Server -> Res Z;
  server_accounts_call : Server -> string -> Res PyVal;
  server_submit_transaction : Server -> Transaction -> Res PyVal;
  requests_request : Request -> Res PyVal;
  sdk_rejects : TransactionBuilder -> option exn
}.

(** Calls that leave the process. *)
Inductive Event : Type :=
| EvLoadAccount (srv : Server) (id : string)
| EvFetchBaseFee (srv : Server)
| EvAccountsCall (srv : Server) (id : string)
| EvSubmitTransaction (srv : Server) (tx : Transaction)
| EvRequest (req : Request).

Definition is_remote_request (ev : Event) : bool :=
  match ev with
  | EvRequest _ => true
  | _ => false
  end.

(** ** The monad of method bodies: session state, call log, exceptions *)

Record Sys := { self : PiNetwork; calls : list Event }.

Definition M (A : Type) : Type := Sys -> Res A * Sys.

Definition M_bind {A B} (m : M A) (k : A -> M B) : M B :=
  fun s =>
    match m s with
    | (Ok a, s') => k a s'
    | (Raise e, s') => (Raise e, s')
    end.

Definition ret {A} (a : A) : M A := fun s => (Ok a, s).

Notation "x <- c ;; k" := (M_bind c (fun x => k))
  (at level 100, c at next level, k at level 200, right associativity) : py_scope.
Notation "c ;; k" := (M_bind c (fun _ => k))
  (at level 100, k at level 200, right associativity) : py_scope.

Definition raise {A} (e : exn) : M A := fun s => (Raise e, s).
Definition lift {A} (r : Res A) : M A := fun s => (r, s).
Definition gets {A} (f : PiNetwork -> A) : M A := fun s => (Ok (f (self s)), s).
Definition modify (f : PiNetwork -> PiNetwork) : M unit :=
  fun s => (Ok (), {| self := f (self s); calls := calls s |}).
Definition emit (ev : Event) : M unit :=
  fun s => (Ok (), {| self := self s; calls := calls s ++ [ev] |}).

(** [try: body except Exception as e: handler]. *)
Definition try_except {A} (body : M A) (handler : exn -> M A) : M A :=
  fun s =>
    match body s with
    | (Ok a, s') => (Ok a, s')
    | (Raise e, s') => handler e s'
    end.

(** Reading an attribute of an [Optional] field that is [None]. *)
Definition attr {A} (f : PiNetwork -> option A) : M A :=
  o <- gets f;;
  match o with
  | Some a => ret a
  | None => raise AttributeError
  end.

(** ** The methods of [PiNetwork] *)

Definition required_fields : list string :=
  ["amount"; "memo"; "metadata"; "user_uid"; "identifier"; "to_address"].

(** [all(field in data for field in fields)], stopping at the first miss. *)
Fixpoint all_in (data : PyVal) (fields : list string) : Res bool :=
  match fields with
  | [] => Ok true
  | field :: rest =>
      let? b := py_in field data in
      if b then all_in data rest else Ok false
  end.

Definition _validate_payment_data (data : PyVal) : Res bool :=
  all_in data required_fields.

Definition _validate_private_seed_format (seed : string) : bool :=
  String.prefix "S" (upper seed) && (String.length seed =? 56)%nat.

Definition network_url (network : string) : string :=
  if String.eqb network "Pi Network" then MAINNET_URL else TESTNET_URL.

(** [TransactionBuilder]'s chained methods. *)
Definition new_builder (src : option Account) (passphrase : string) (fee : Z)
  : TransactionBuilder :=
  {| source_account := src; network_passphrase := passphrase; base_fee := fee;
     memo := None; operations := []; timeout := None |}.
Definition add_text_memo (text : PyVal) (b : TransactionBuilder) : TransactionBuilder :=
  {| source_account := source_account b; network_passphrase := network_passphrase b;
     base_fee := base_fee b; memo := Some (TextMemo text);
     operations := operations b; timeout := timeout b |}.
Definition append_payment_op (dest : PyVal) (a : Asset) (amt : string)
    (b : TransactionBuilder) : TransactionBuilder :=
  {| source_account := source_account b; network_passphrase := network_passphrase b;
     base_fee := base_fee b; memo := memo b;
     operations := operations b ++ [Payment dest a amt]; timeout := timeout b |}.
Definition set_timeout (t : Z) (b : TransactionBuilder) : TransactionBuilder :=
  {| source_account := source_account b; network_passphrase := network_passphrase b;
     base_fee := base_fee b; memo := memo b;
     operations := operations b; timeout := Some t |}.

Definition increment_sequence_number (a : Account) : Account :=
  {| account_id := account_id a; sequence := sequence a + 1 |}.

(** The unsigned transaction [build()] makes for source account [a]. *)
Definition transaction_of (a : Account) (b : TransactionBuilder) : Transaction :=
  {| tx_source := account_id a; tx_sequence := sequence a + 1;
     tx_network_passphrase := network_passphrase b;
     tx_base_fee := base_fee b; tx_memo := memo b;
     tx_operations := operations b; tx_timeout := timeout b;
     tx_signers := [] |}.

(** [transaction.sign(keypair)]. *)
Definition sign (kp : Keypair) (tx : Transaction) : Transaction :=
  {| tx_source := tx_source tx; tx_sequence := tx_sequence tx;
     tx_network_passphrase := tx_network_passphrase tx;
     tx_base_fee := tx_base_fee tx; tx_memo := tx_memo tx;
     tx_operations := tx_operations tx; tx_timeout := tx_timeout tx;
     tx_signers := tx_signers tx ++ [kp] |}.

Section Methods.
Context `{DecimalLib} `{PyBuiltins} (w : World).

(** [build()]: the SDK checks what the chain was given, numbers the
    transaction after the source account and bumps that account's sequence
    number; the account is the session's own [_account] object. *)
Definition build (b : TransactionBuilder) : M Transaction :=
  match sdk_rejects w b with
  | Some e => raise e
  | None =>
      match source_account b with
      | None => raise AttributeError
      | Some a =>
          modify (set_account (Some (increment_sequence_number a)));;
          ret (transaction_of a b)
      end
  end.

Definition _load_account (private_seed network : string) : M unit :=
  kp <- lift (Keypair_from_secret w private_seed);;
  modify (set_keypair (Some kp));;
  let horizon_url := network_url network in
  modify (set_server (Some {| horizon_url := horizon_url |}));;
  srv <- attr _server;;
  kp' <- attr _keypair;;
  emit (EvLoadAccount srv (public_key kp'));;
  acct <- lift (server_load_account w srv (public_key kp'));;
  modify (set_account (Some acct)).

Definition initialize (api_key wallet_private_key network : string) : M bool :=
  try_except
    (if negb (_validate_private_seed_format wallet_private_key)
     then raise (PiNetworkError "Invalid private seed format")
     else
       modify (set_api_key api_key);;
       _load_account wallet_private_key network;;
       modify (set_base_url (network_url network));;
       modify (set_network network);;
       srv <- attr _server;;
       emit (EvFetchBaseFee srv);;
       fee <- lift (server_fetch_base_fee w srv);;
       modify (set_fee fee);;
       ret true)
    (fun _ => ret false).

(** The [for] loop of [get_balance]. *)
Fixpoint first_native (balances : list PyVal) : Res Dec :=
  match balances with
  | [] => Ok (dec_of_int 0)
  | balance :: rest =>
      let? t := py_getitem balance "asset_type" in
      if is_VStr "native" t
      then let? b := py_getitem balance "balance" in Decimal b
      else first_native rest
  end.

Definition get_balance : M Dec :=
  try_except
    (srv <- attr _server;;
     kp <- attr _keypair;;
     emit (EvAccountsCall srv (public_key kp));;
     response <- lift (server_accounts_call w srv (public_key kp));;
     balances <- lift (py_getitem response "balances");;
     items <- lift (py_iter balances);;
     lift (first_native items))
    (fun _ => ret (dec_of_int 0)).

Definition _make_request (method url : string) (json : option PyVal) : M PyVal :=
  api_key <- gets _api_key;;
  let headers := [("Authorization", "Key " +:+ api_key);
                  ("Content-Type", "application/json")] in
  let req := {| method := method; url := url; json := json; headers := headers |} in
  emit (EvRequest req);;
  match requests_request w req with
  | Ok v => ret v
  | Raise e =>
      if is_RequestException e
      then raise (PiNetworkError ("API request failed: " +:+ exn_message e))
      else raise e
  end.

(** [response.get('identifier') or response.get('payment', {}).get('identifier')]. *)
Definition response_identifier (response : PyVal) : Res PyVal :=
  let? i := py_get response "identifier" VNone in
  if py_truthy i then Ok i
  else
    let? p := py_get response "payment" (VDict []) in
    py_get p "identifier" VNone.

(** [response.get('payment') or response]. *)
Definition response_snapshot (response : PyVal) : Res PyVal :=
  let? p := py_get response "payment" VNone in
  Ok (py_or p response).

Definition create_payment (payment_data : PyVal) : M PyVal :=
  try_except
    (ok <- lift (_validate_payment_data payment_data);;
     if negb ok then raise (PiNetworkError "Invalid payment data")
     else
       balance <- get_balance;;
       amount <- lift (py_getitem payment_data "amount");;
       fee <- gets _fee;;
       total <- lift (total_cost amount fee);;
       over <- lift (dec_gt total balance);;
       if over then ret (VStr "")
       else
         base <- gets _base_url;;
         response <- _make_request "POST" (base +:+ "/v2/payments")
                      (Some (VDict [("payment", payment_data)]));;
         identifier <- lift (response_identifier response);;
         (if py_truthy identifier
          then
            snapshot <- lift (response_snapshot response);;
            k <- lift (hash_key identifier);;
            reg <- gets _open_payments;;
            modify (set_open_payments (<[k := snapshot]> reg))
          else ret ());;
         ret (py_or identifier (VStr "")))
    (fun _ => ret (VStr "")).

Definition _build_a2u_transaction (transaction_data : PyVal) : M Transaction :=
  ok <- lift (_validate_payment_data transaction_data);;
  if negb ok then raise (PiNetworkError "Invalid transaction data")
  else
    account <- gets _account;;
    network <- gets _network;;
    fee <- gets _fee;;
    identifier <- lift (py_getitem transaction_data "identifier");;
    to_address <- lift (py_getitem transaction_data "to_address");;
    amount <- lift (py_getitem transaction_data "amount");;
    build (set_timeout 180
             (append_payment_op to_address Native (py_str amount)
                (add_text_memo identifier (new_builder account network fee)))).

Definition _submit_transaction (transaction : Transaction) : M PyVal :=
  kp <- attr _keypair;;
  let signed := sign kp transaction in
  srv <- attr _server;;
  emit (EvSubmitTransaction srv signed);;
  response <- lift (server_submit_transaction w srv signed);;
  lift (py_getitem response "id").

(** [payment_id in self._open_payments]. *)
Definition registered (payment_id : string) (reg : gmap Key PyVal) : bool :=
  match reg !! KStr payment_id with
  | Some _ => true
  | None => false
  end.

Definition submit_payment (payment_id : string) (pending_payment : PyVal) : M PyVal :=
  try_except
    (reg <- gets _open_payments;;
     if negb (registered payment_id reg) && negb (py_truthy pending_payment)
     then ret (VStr "")
     else
       payment <- (if py_truthy pending_payment then ret pending_payment
                   else match reg !! KStr payment_id with
                        | Some p => ret p
                        | None => raise (KeyError payment_id)
                        end);;
       balance <- get_balance;;
       amount <- lift (py_getitem payment "amount");;
       fee <- gets _fee;;
       total <- lift (total_cost amount fee);;
       over <- lift (dec_gt total balance);;
       if over then ret (VStr "")
       else
         transaction <- _build_a2u_transaction payment;;
         txid <- _submit_transaction transaction;;
         reg' <- gets _open_payments;;
         (if registered payment_id reg'
          then modify (set_open_payments (delete (KStr payment_id) reg'))
          else ret ());;
         ret txid)
    (fun _ => ret (VStr "")).

Definition complete_payment (identifier : string) (txid : PyVal) : M bool :=
  try_except
    (base <- gets _base_url;;
     _make_request "POST" (base +:+ "/v2/payments/" +:+ identifier +:+ "/complete")
       (Some (if py_truthy txid then VDict [("txid", txid)] else VDict []));;
     ret true)
    (fun _ => ret false).

Definition cancel_payment (identifier : string) : M bool :=
  try_except
    (base <- gets _base_url;;
     _make_request "POST" (base +:+ "/v2/payments/" +:+ identifier +:+ "/cancel")
       (Some (VDict []));;
     ret true)
    (fun _ => ret false).

Definition get_incomplete_server_payments : M PyVal :=
  try_except
    (base <- gets _base_url;;
     response <- _make_request "GET"
                   (base +:+ "/v2/payments/incomplete_server_payments") None;;
     lift (py_get response "incomplete_server_payments" (VList [])))
    (fun _ => ret (VList [])).
End Methods.

(** ** A reference instance of the libraries

    Finite decimals without rounding, as rationals in lowest terms: what the
    decimal module computes as long as no result needs more than the context's
    28 significant digits.  Literals are [sign] digits [. digits] [e [sign]
    digits]; surrounding blanks, underscores and the special values are not
    read.  A list is never a valid argument (the coefficient has to be a
    tuple). *)
Module ExactDecimal.
Definition digit_of (c : Ascii.ascii) : option Z :=
  let n := Ascii.nat_of_ascii c in
  if ((48 <=? n) && (n <=? 57))%nat then Some (Z.of_nat n - 48) else None.

(** Reads the digits at the head of [s] onto [acc]; returns the number
    read, how many digits it took and the rest of the text. *)
Fixpoint read_digits (s : string) (acc : Z) (count : Z) : Z * Z * string :=
  match s with
  | EmptyString => (acc, count, s)
  | String c rest =>
      match digit_of c with
      | Some d => read_digits rest (10 * acc + d) (count + 1)
      | None => (acc, count, s)
      end
  end.

Definition read_sign (s : string) : bool * string :=
  match s with
  | String "-"%char rest => (true, rest)
  | String "+"%char rest => (false, rest)
  | _ => (false, s)
  end.

Definition read_exponent (s : string) : option Z :=
  match s with
  | EmptyString => Some 0
  | String c rest =>
      if (Ascii.eqb c "e" || Ascii.eqb c "E")%char then
        let '(neg, rest1) := read_sign rest in
        let '(e, n, rest2) := read_digits rest1 0 0 in
        if (0 <? n) && String.eqb rest2 "" then Some (if neg then - e else e)
        else None
      else None
  end.

Definition scale10 (coef e : Z) : Q :=
  if 0 <=? e then Qmake (coef * 10 ^ e) 1
  else Qred (Qmake coef (Z.to_pos (10 ^ (- e)))).

Definition of_str (s : string) : Res Q :=
  let '(neg, s1) := read_sign s in
  let '(i, n1, s2) := read_digits s1 0 0 in
  let '(coef, n2, s3) :=
    match s2 with
    | String "."%char rest => read_digits rest i 0
    | _ => (i, 0, s2)
    end in
  if 0 <? n1 + n2 then
    match read_exponent s3 with
    | Some e => Ok (scale10 (if neg then - coef else coef) (e - n2))
    | None => Raise (LibraryError "InvalidOperation")
    end
  else Raise (LibraryError "InvalidOperation").

Definition div (a b : Q) : Res Q :=
  if Qnum b =? 0 then Raise (LibraryError "DivisionByZero")
  else Ok (Qred (a / b)).

#[global] Instance lib : DecimalLib := {|
  Dec := Q;
  dec_of_int := fun z => Qmake z 1;
  dec_of_str := of_str;
  dec_of_seq := fun _ => Raise (LibraryError "ValueError");
  dec_add := fun a b => Ok (Qred (a + b));
  dec_div := div;
  dec_cmp := fun a b => Ok (a ?= b)%Q
|}.
End ExactDecimal.

(** [str] of lists and dictionaries, exact for texts without quotes,
    backslashes and control characters. *)
Module SimpleRepr.
Definition join (parts : list string) : string :=
  match parts with
  | [] => ""
  | p :: rest => fold_left (fun acc x => acc +:+ ", " +:+ x) rest p
  end.

Fixpoint repr (v : PyVal) : string :=
  match v with
  | VNone => "None"
  | VBool true => "True"
  | VBool false => "False"
  | VInt z => pretty z
  | VStr s => "'" +:+ s +:+ "'"
  | VList l => "[" +:+ join (map repr l) +:+ "]"
  | VDict d =>
      "{" +:+ join (map (fun kv => "'" +:+ fst kv +:+ "': " +:+ repr (snd kv)) d) +:+ "}"
  end.

#[global] Instance builtins : PyBuiltins := {| str_container := repr |}.
End SimpleRepr.

(** ** A sample session

    A node that holds 100 units for the account, a base fee of 100, a payment
    API that answers every request with the snapshot of payment [pay1]. *)
Module Sample.
Import ExactDecimal SimpleRepr.

Definition seed : string :=
  "SAAAAAAAAAAAAAAAAAAAAAAAAAAAAAAAAAAAAAAAAAAAAAAAAAAAAAAA".

Definition intent : PyVal :=
  VDict [("amount", VInt 10); ("memo", VStr "x"); ("metadata", VDict []);
         ("user_uid", VStr "u1"); ("identifier", VStr "pay1");
         ("to_address", VStr "GADDR")].

Definition node_balances : PyVal :=
  VDict [("balances",
          VList [VDict [("balance", VStr "5.0000000");
                        ("asset_type", VStr "credit_alphanum4")];
                 VDict [("balance", VStr "100.0000000");
                        ("asset_type", VStr "native")]])].

Definition world : World := {|
  Keypair_from_secret := fun s => Ok {| secret_seed := s; public_key := "GPUB" |};
  server_load_account := fun _ id => Ok {| account_id := id; sequence := 7 |};
  server_fetch_base_fee := fun _ => Ok 100;
  server_accounts_call := fun _ _ => Ok node_balances;
  server_submit_transaction := fun _ _ => Ok (VDict [("id", VStr "tx1")]);
  requests_request := fun _ => Ok (VDict [("payment", intent)]);
  sdk_rejects := fun _ => None
|}.

(** The same, with a node that does not answer the balance query. *)
Definition world_node_down : World := {|
  Keypair_from_secret := Keypair_from_secret world;
  server_load_account := server_load_account world;
  server_fetch_base_fee := server_fetch_base_fee world;
  server_accounts_call := fun _ _ => Raise (LibraryError "ConnectionError");
  server_submit_transaction := server_submit_transaction world;
  requests_request := requests_request world;
  sdk_rejects := sdk_rejects world
|}.

(** The same, with a node that refuses to load the account. *)
Definition world_no_account : World := {|
  Keypair_from_secret := Keypair_from_secret world;
  server_load_account := fun _ _ => Raise (LibraryError "NotFoundError");
  server_fetch_base_fee := server_fetch_base_fee world;
  server_accounts_call := server_accounts_call world;
  server_submit_transaction := server_submit_transaction world;
  requests_request := requests_request world;
  sdk_rejects := sdk_rejects world
|}.

(** Nodes that hold exactly the total cost of [intent], and less than it. *)
Definition balances_of (native : string) : PyVal :=
  VDict [("balances",
          VList [VDict [("balance", VStr native); ("asset_type", VStr "native")]])].

Definition world_holding (native : string) : World := {|
  Keypair_from_secret := Keypair_from_secret world;
  server_load_account := server_load_account world;
  server_fetch_base_fee := server_fetch_base_fee world;
  server_accounts_call := fun _ _ => Ok (balances_of native);
  server_submit_transaction := server_submit_transaction world;
  requests_request := requests_request world;
  sdk_rejects := sdk_rejects world
|}.

Definition world_exact : World := world_holding "10.0000100".
Definition world_poor : World := world_holding "5.0000000".

(** [intent] with an empty memo and empty metadata. *)
Definition intent_empty_memo : PyVal :=
  VDict [("amount", VInt 10); ("memo", VStr ""); ("metadata", VDict []);
         ("user_uid", VStr "u1"); ("identifier", VStr "pay1");
         ("to_address", VStr "GADDR")].

(** [intent] with a negative amount. *)
Definition intent_negative : PyVal :=
  VDict [("amount", VInt (-1)); ("memo", VStr "x"); ("metadata", VDict []);
         ("user_uid", VStr "u1"); ("identifier", VStr "pay1");
         ("to_address", VStr "GADDR")].

Definition fresh : Sys := {| self := __init__; calls := [] |}.

(** The session after [initialize("key", seed, "Pi Testnet")], log emptied. *)
Definition session : Sys :=
  {| self := self (snd (initialize world "key" seed "Pi Testnet" fresh));
     calls := [] |}.

(** The session once [pay1] is registered. *)
Definition session_open : Sys :=
  {| self := self (snd (create_payment world intent session)); calls := [] |}.
(** A node whose answer lists no native entry, and one whose first entry
    lacks its asset type. *)
Definition world_answering (balances : PyVal) : World := {|
  Keypair_from_secret := Keypair_from_secret world;
  server_load_account := server_load_account world;
  server_fetch_base_fee := server_fetch_base_fee world;
  server_accounts_call := fun _ _ => Ok (VDict [("balances", balances)]);
  server_submit_transaction := server_submit_transaction world;
  requests_request := requests_request world;
  sdk_rejects := sdk_rejects world
|}.

Definition other_asset : PyVal :=
  VDict [("balance", VStr "5.0000000"); ("asset_type", VStr "credit_alphanum4")].
Definition native_asset : PyVal :=
  VDict [("balance", VStr "100.0000000"); ("asset_type", VStr "native")].
Definition untyped_asset : PyVal := VDict [("balance", VStr "7.0000000")].

(** [intent] with an amount that is no number. *)
Definition intent_no_amount : PyVal :=
  VDict [("amount", VNone); ("memo", VStr "x"); ("metadata", VDict []);
         ("user_uid", VStr "u1"); ("identifier", VStr "pay1");
         ("to_address", VStr "GADDR")].

(** A node that accepts the transaction and answers without an id. *)
Definition world_no_id : World := {|
  Keypair_from_secret := Keypair_from_secret world;
  server_load_account := server_load_account world;
  server_fetch_base_fee := server_fetch_base_fee world;
  server_accounts_call := server_accounts_call world;
  server_submit_transaction := fun _ _ => Ok (VDict [("hash", VStr "abc")]);
  requests_request := requests_request world;
  sdk_rejects := sdk_rejects world
|}.

Definition keypair : Keypair := {| secret_seed := seed; public_key := "GPUB" |}.
Definition account : Account := {| account_id := "GPUB"; sequence := 7 |}.
Definition server : Server := {| horizon_url := TESTNET_URL |}.
End Sample.

(** ** What the methods are checked against *)

Section Specification.
Context `{DecimalLib} `{PyBuiltins}.
Implicit Types (w : World) (s : Sys) (p : PiNetwork).

(** The node's answer to the balance query, as the loop receives it. *)
Definition query_balances w p : Res (list PyVal) :=
  match _server p, _keypair p with
  | Some srv, Some kp =>
      let? response := server_accounts_call w srv (public_key kp) in
      let? balances := py_getitem response "balances" in
      py_iter balances
  | _, _ => Raise AttributeError
  end.

(** The value [get_balance] returns in a session [p]. *)
Definition balance_of w p : Dec :=
  match (let? items := query_balances w p in first_native items) with
  | Ok d => d
  | Raise _ => dec_of_int 0
  end.

(** The calls it makes. *)
Definition balance_calls p : list Event :=
  match _server p, _keypair p with
  | Some srv, Some kp => [EvAccountsCall srv (public_key kp)]
  | _, _ => []
  end.

Definition logged s (evs : list Event) : Sys :=
  {| self := self s; calls := calls s ++ evs |}.

(** Entries before the native one: each names an asset type, none native. *)
Definition not_native (entry : PyVal) : Prop :=
  exists t, py_getitem entry "asset_type" = Ok t /\ is_VStr "native" t = false.

(** The balance gate of [create_payment] and [submit_payment]:
    [Ok true] when the total cost exceeds the balance. *)
Definition gate w p (payment : PyVal) : Res bool :=
  let? amount := py_getitem payment "amount" in
  let? total := total_cost amount (_fee p) in
  dec_gt total (balance_of w p).

(** The headers [_make_request] puts on every request. *)
Definition api_headers p : list (string * string) :=
  [("Authorization", "Key " +:+ _api_key p); ("Content-Type", "application/json")].

(** The request [create_payment] sends. *)
Definition create_request p (payment_data : PyVal) : Request :=
  {| method := "POST"; url := _base_url p +:+ "/v2/payments";
     json := Some (VDict [("payment", payment_data)]);
     headers := api_headers p |}.

(** What [_make_request] returns or raises for a request. *)
Definition api_result w (req : Request) : Res PyVal :=
  match requests_request w req with
  | Ok v => Ok v
  | Raise e =>
      Raise (if is_RequestException e
             then PiNetworkError ("API request failed: " +:+ exn_message e)
             else e)
  end.

(** What [create_payment] makes of the API's answer: the value to return,
    and the registry entry to write, if any. *)
Definition registration (response : PyVal) : Res (PyVal * option (Key * PyVal)) :=
  let? identifier := response_identifier response in
  if py_truthy identifier then
    let? snapshot := response_snapshot response in
    let? k := hash_key identifier in
    Ok (identifier, Some (k, snapshot))
  else Ok (VStr "", None).

(** A required field that is there and empty. *)
Definition is_empty (v : PyVal) : bool :=
  match v with
  | VNone | VStr "" | VList [] | VDict [] => true
  | _ => false
  end.

(** The payment [submit_payment] works on: the one passed in, else the
    registry's. *)
Definition resolve_payment (payment_id : string) (pending_payment : PyVal)
    (reg : gmap Key PyVal) : option PyVal :=
  if py_truthy pending_payment then Some pending_payment
  else reg !! KStr payment_id.

(** What [_build_a2u_transaction] hands to [build()]. *)
Definition payment_builder p (transaction_data : PyVal) : Res TransactionBuilder :=
  let? identifier := py_getitem transaction_data "identifier" in
  let? to_address := py_getitem transaction_data "to_address" in
  let? amount := py_getitem transaction_data "amount" in
  Ok (set_timeout 180
        (append_payment_op to_address Native (py_str amount)
           (add_text_memo identifier
              (new_builder (_account p) (_network p) (_fee p))))).

(** A submission the node accepted and answered with an id. *)
Definition acknowledged w (ev : Event) : bool :=
  match ev with
  | EvSubmitTransaction srv tx =>
      match (let? response := server_submit_transaction w srv tx in
             py_getitem response "id") with
      | Ok _ => true
      | Raise _ => false
      end
  | _ => false
  end.

(** The calls made between [s] and [s']. *)
Definition new_calls s s' : list Event := drop (length (calls s)) (calls s').

(** No request to the payment API between [s] and [s']. *)
Definition no_request s s' : Prop :=
  List.filter is_remote_request (new_calls s s') = [].

(** The requests of [complete_payment], [cancel_payment] and
    [get_incomplete_server_payments]. *)
Definition complete_request p (identifier : string) (txid : PyVal) : Request :=
  {| method := "POST";
     url := _base_url p +:+ "/v2/payments/" +:+ identifier +:+ "/complete";
     json := Some (if py_truthy txid then VDict [("txid", txid)] else VDict []);
     headers := api_headers p |}.

Definition cancel_request p (identifier : string) : Request :=
  {| method := "POST";
     url := _base_url p +:+ "/v2/payments/" +:+ identifier +:+ "/cancel";
     json := Some (VDict []);
     headers := api_headers p |}.

Definition incomplete_request p : Request :=
  {| method := "GET";
     url := _base_url p +:+ "/v2/payments/incomplete_server_payments";
     json := None;
     headers := api_headers p |}.

(** The public operations, and the session after one of them. *)
Inductive Call : Type :=
| CallInitialize (api_key wallet_private_key network : string)
| CallGetBalance
| CallCreatePayment (payment_data : PyVal)
| CallSubmitPayment (payment_id : string) (pending_payment : PyVal)
| CallCompletePayment (identifier : string) (txid : PyVal)
| CallCancelPayment (identifier : string)
| CallGetIncompleteServerPayments.

Definition perform w (c : Call) s : Sys :=
  match c with
  | CallInitialize k seed n => snd (initialize w k seed n s)
  | CallGetBalance => snd (get_balance w s)
  | CallCreatePayment pd => snd (create_payment w pd s)
  | CallSubmitPayment id pending => snd (submit_payment w id pending s)
  | CallCompletePayment id txid => snd (complete_payment w id txid s)
  | CallCancelPayment id => snd (cancel_payment w id s)
  | CallGetIncompleteServerPayments => snd (get_incomplete_server_payments w s)
  end.
(** Kinds of calls in the log. *)
Definition is_submission (ev : Event) : bool :=
  match ev with
  | EvSubmitTransaction _ _ => true
  | _ => false
  end.

Definition is_setup_call (ev : Event) : bool :=
  match ev with
  | EvLoadAccount _ _ | EvFetchBaseFee _ => true
  | _ => false
  end.

(** The operations that go through [_make_request]. *)
Definition uses_gateway (c : Call) : bool :=
  match c with
  | CallCreatePayment _ | CallCompletePayment _ _ | CallCancelPayment _
  | CallGetIncompleteServerPayments => true
  | _ => false
  end.

(** The session [initialize] leaves when every step succeeds. *)
Definition initialized p (api_key network : string) (kp : Keypair)
    (acct : Account) (fee : Z) : PiNetwork :=
  {| _api_key := api_key;
     _server := Some {| horizon_url := network_url network |};
     _account := Some acct;
     _base_url := network_url network;
     _network := network;
     _keypair := Some kp;
     _fee := fee;
     _open_payments := _open_payments p |}.
End Specification.

(** * Verification *)

(** ** The monad *)

(** A handler that returns a value makes the block total. *)
Lemma try_except_total {A} (body : M A) (sentinel : A) s :
  exists a s', try_except body (fun _ => ret sentinel) s = (Ok a, s')
               /\ (forall e, fst (body s) = Raise e -> a = sentinel).
Proof.
  unfold try_except, ret. destruct (body s) as [[a|e] s'] eqn:E; simpl.
  - exists a, s'. split; [reflexivity | discriminate].
  - exists sentinel, s'. split; [reflexivity | reflexivity].
Qed.

Ltac run :=
  cbv [M_bind ret raise lift gets modify emit attr try_except]; simpl.

(** ** Validation *)

Lemma all_in_dict d fields :
  all_in (VDict d) fields = Ok (forallb (fun f => dict_has f d) fields).
Proof.
  induction fields as [|f fs IH]; simpl; [reflexivity|].
  destruct (dict_has f d); simpl; [exact IH | reflexivity].
Qed.

Lemma validate_dict d :
  _validate_payment_data (VDict d)
  = Ok (forallb (fun f => dict_has f d) required_fields).
Proof. apply all_in_dict. Qed.

Lemma dict_has_true k d : dict_has k d = true <-> is_Some (dict_lookup k d).
Proof.
  unfold dict_has. destruct (dict_lookup k d); split; intros E;
    try discriminate; eauto; destruct E; discriminate.
Qed.

Lemma validate_dict_true d :
  _validate_payment_data (VDict d) = Ok true
  <-> forall f, In f required_fields -> is_Some (dict_lookup f d).
Proof.
  rewrite validate_dict. split.
  - intros E f Hf.
    assert (E' : forallb (fun f => dict_has f d) required_fields = true)
      by congruence.
    rewrite forallb_forall in E'. apply dict_has_true, E', Hf.
  - intros Hall. f_equal. apply forallb_forall.
    intros f Hf. apply dict_has_true, Hall, Hf.
Qed.

Lemma validate_dict_missing d f :
  In f required_fields -> dict_lookup f d = None ->
  _validate_payment_data (VDict d) = Ok false.
Proof.
  intros Hf Hnone. rewrite validate_dict. f_equal.
  apply not_true_is_false. intros E. rewrite forallb_forall in E.
  specialize (E f Hf). apply dict_has_true in E. rewrite Hnone in E.
  destruct E; discriminate.
Qed.

Section Verification.
Context `{DecimalLib} `{PyBuiltins}.
Implicit Types (w : World) (s : Sys) (p : PiNetwork).

(** ** The balance query *)

Lemma logged_nil s : logged s [] = s.
Proof. destruct s. unfold logged. simpl. now rewrite app_nil_r. Qed.

Lemma get_balance_spec w s :
  get_balance w s = (Ok (balance_of w (self s)), logged s (balance_calls (self s))).
Proof.
  unfold get_balance, balance_of, balance_calls, query_balances. run.
  destruct (_server (self s)) as [srv|]; simpl;
    [destruct (_keypair (self s)) as [kp|]; simpl|].
  - destruct (server_accounts_call w srv (public_key kp)) as [r|e]; simpl;
      [|reflexivity].
    destruct (py_getitem r "balances") as [bs|e]; simpl; [|reflexivity].
    destruct (py_iter bs) as [items|e]; simpl; [|reflexivity].
    destruct (first_native items); reflexivity.
  - now rewrite logged_nil.
  - now rewrite logged_nil.
Qed.

Lemma first_native_found pre entry post b :
  Forall not_native pre ->
  py_getitem entry "asset_type" = Ok (VStr "native") ->
  py_getitem entry "balance" = Ok b ->
  first_native (pre ++ entry :: post) = Decimal b.
Proof.
  intros Hpre Ht Hb. induction Hpre as [|x pre [t [Hx Hn]] _ IH]; simpl.
  - rewrite Ht. simpl. now rewrite Hb.
  - rewrite Hx. simpl. rewrite Hn. exact IH.
Qed.

(** C8. [get_balance] never raises and leaves the session as it was.  When the
    node's answer lists a native entry (after entries of other assets) whose
    balance the decimal constructor reads as [v], the result is [v]; when the
    query fails - no server handle or key pair, the node call raises, the
    answer has no iterable ["balances"] - the result is [Decimal(0)]. *)
Theorem get_balance_soft_fail w s :
  exists d,
    get_balance w s = (Ok d, logged s (balance_calls (self s)))
    /\ (forall pre entry post b v,
          query_balances w (self s) = Ok (pre ++ entry :: post) ->
          Forall not_native pre ->
          py_getitem entry "asset_type" = Ok (VStr "native") ->
          py_getitem entry "balance" = Ok b ->
          Decimal b = Ok v ->
          d = v)
    /\ (forall e, query_balances w (self s) = Raise e -> d = dec_of_int 0).
Proof.
  exists (balance_of w (self s)). split; [apply get_balance_spec|]. split.
  - intros pre entry post b v Hq Hpre Ht Hb Hv. unfold balance_of.
    rewrite Hq. simpl. rewrite (first_native_found _ _ _ _ Hpre Ht Hb).
    now rewrite Hv.
  - intros e Hq. unfold balance_of. now rewrite Hq.
Qed.

(** ** [create_payment] by cases *)

Lemma create_payment_invalid w s pd :
  _validate_payment_data pd <> Ok true ->
  create_payment w pd s = (Ok (VStr ""), s).
Proof.
  intros Hv. unfold create_payment.
  destruct (_validate_payment_data pd) as [[|]|e]; run; congruence.
Qed.

Lemma create_payment_gate_closed w s pd :
  _validate_payment_data pd = Ok true ->
  gate w (self s) pd <> Ok false ->
  create_payment w pd s = (Ok (VStr ""), logged s (balance_calls (self s))).
Proof.
  intros Hv Hg. unfold create_payment, gate in *. rewrite Hv. run.
  rewrite get_balance_spec. simpl.
  destruct (py_getitem pd "amount") as [a|e]; simpl in *; [|reflexivity].
  destruct (total_cost a (_fee (self s))) as [t|e]; simpl in *; [|reflexivity].
  destruct (dec_gt t (balance_of w (self s))) as [[|]|e]; simpl;
    congruence.
Qed.

Lemma create_payment_gate_open w s pd :
  _validate_payment_data pd = Ok true ->
  gate w (self s) pd = Ok false ->
  let req := create_request (self s) pd in
  let s1 := logged s (balance_calls (self s) ++ [EvRequest req]) in
  create_payment w pd s =
    match (let? response := api_result w req in registration response) with
    | Ok (v, Some (k, snapshot)) =>
        (Ok v, {| self := set_open_payments
                            (<[k := snapshot]> (_open_payments (self s))) (self s);
                  calls := calls s1 |})
    | Ok (v, None) => (Ok v, s1)
    | Raise _ => (Ok (VStr ""), s1)
    end.
Proof.
  intros Hv Hg req s1. unfold create_payment, gate in *. rewrite Hv. run.
  rewrite get_balance_spec. simpl.
  destruct (py_getitem pd "amount") as [a|e]; simpl in *; [|discriminate].
  destruct (total_cost a (_fee (self s))) as [t|e]; simpl in *; [|discriminate].
  rewrite Hg. unfold _make_request. run.
  subst s1 req. unfold api_result, create_request, api_headers, logged. simpl.
  rewrite <- app_assoc.
  match goal with
  | |- context [requests_request w ?r] =>
      destruct (requests_request w r) as [response|e]; simpl
  end.
  - unfold registration.
    destruct (response_identifier response) as [i|e]; simpl; [|reflexivity].
    destruct (py_truthy i) eqn:Hi; simpl.
    + destruct (response_snapshot response) as [snap|e]; simpl; [|reflexivity].
      destruct (hash_key i) as [k|e]; simpl; [|reflexivity].
      unfold py_or. now rewrite Hi.
    + unfold py_or. now rewrite Hi.
  - destruct (is_RequestException e); reflexivity.
Qed.

(** ** [submit_payment] by cases *)

Lemma new_calls_logged s evs : new_calls s (logged s evs) = evs.
Proof. unfold new_calls, logged. simpl. apply drop_app_length. Qed.

Lemma new_calls_app s p evs :
  new_calls s {| self := p; calls := calls s ++ evs |} = evs.
Proof. unfold new_calls. simpl. apply drop_app_length. Qed.

Lemma new_calls_same s : new_calls s s = [].
Proof. unfold new_calls. apply drop_all. Qed.

Lemma balance_calls_quiet w p :
  existsb (acknowledged w) (balance_calls p) = false
  /\ List.filter is_remote_request (balance_calls p) = [].
Proof.
  unfold balance_calls. destruct (_server p), (_keypair p); split; reflexivity.
Qed.

Lemma build_spec w s data :
  _build_a2u_transaction w data s =
    match _validate_payment_data data with
    | Ok true =>
        match payment_builder (self s) data with
        | Ok b =>
            match sdk_rejects w b, _account (self s) with
            | Some e, _ => (Raise e, s)
            | None, None => (Raise AttributeError, s)
            | None, Some a =>
                (Ok (transaction_of a b),
                 {| self := set_account (Some (increment_sequence_number a)) (self s);
                    calls := calls s |})
            end
        | Raise e => (Raise e, s)
        end
    | Ok false => (Raise (PiNetworkError "Invalid transaction data"), s)
    | Raise e => (Raise e, s)
    end.
Proof.
  unfold _build_a2u_transaction, payment_builder.
  destruct (_validate_payment_data data) as [[|]|e]; run; try reflexivity.
  destruct (py_getitem data "identifier") as [i|e]; simpl; [|reflexivity].
  destruct (py_getitem data "to_address") as [t|e]; simpl; [|reflexivity].
  destruct (py_getitem data "amount") as [a|e]; simpl; [|reflexivity].
  unfold build. simpl.
  destruct (sdk_rejects w _) as [e|]; [reflexivity|].
  destruct (_account (self s)) as [acct|]; reflexivity.
Qed.

Lemma submit_transaction_spec w s tx :
  _submit_transaction w tx s =
    match _keypair (self s), _server (self s) with
    | None, _ => (Raise AttributeError, s)
    | Some _, None => (Raise AttributeError, s)
    | Some kp, Some srv =>
        ((let? response := server_submit_transaction w srv (sign kp tx) in
          py_getitem response "id"),
         logged s [EvSubmitTransaction srv (sign kp tx)])
    end.
Proof.
  unfold _submit_transaction. run.
  destruct (_keypair (self s)) as [kp|]; [|reflexivity].
  destruct (_server (self s)) as [srv|]; [|reflexivity].
  simpl. destruct (server_submit_transaction w srv (sign kp tx)); reflexivity.
Qed.

Lemma submit_payment_idle w s id pending :
  resolve_payment id pending (_open_payments (self s)) = None ->
  submit_payment w id pending s = (Ok (VStr ""), s).
Proof.
  unfold resolve_payment, submit_payment, registered. intros Hr. run.
  destruct (py_truthy pending); [discriminate|]. now rewrite Hr.
Qed.

Lemma submit_payment_resolved w s id pending payment :
  resolve_payment id pending (_open_payments (self s)) = Some payment ->
  submit_payment w id pending s =
    let s1 := logged s (balance_calls (self s)) in
    match gate w (self s) payment with
    | Ok false =>
        match _build_a2u_transaction w payment s1 with
        | (Ok tx, s2) =>
            match _submit_transaction w tx s2 with
            | (Ok txid, s3) =>
                (Ok txid,
                 if registered id (_open_payments (self s3))
                 then {| self := set_open_payments
                                   (delete (KStr id) (_open_payments (self s3)))
                                   (self s3);
                         calls := calls s3 |}
                 else s3)
            | (Raise _, s3) => (Ok (VStr ""), s3)
            end
        | (Raise _, s2) => (Ok (VStr ""), s2)
        end
    | _ => (Ok (VStr ""), s1)
    end.
Proof.
  unfold resolve_payment, submit_payment, registered, gate. intros Hr. run.
  destruct (py_truthy pending) eqn:Hp;
    [injection Hr as ->; rewrite andb_false_r | rewrite Hr]; simpl.
  all: rewrite get_balance_spec; simpl.
  all: destruct (py_getitem payment "amount") as [a|e]; simpl; [|reflexivity].
  all: destruct (total_cost a (_fee (self s))) as [t|e]; simpl; [|reflexivity].
  all: destruct (dec_gt t (balance_of w (self s))) as [[|]|e]; simpl;
    try reflexivity.
  all: destruct (_build_a2u_transaction w payment _) as [[tx|e] s2];
    [|reflexivity].
  all: destruct (_submit_transaction w tx s2) as [[txid|e] s3]; [|reflexivity].
  all: simpl; destruct (_open_payments (self s3) !! KStr id); reflexivity.
Qed.

Lemma existsb_app_event w (l l' : list Event) :
  existsb (acknowledged w) (l ++ l') =
  existsb (acknowledged w) l || existsb (acknowledged w) l'.
Proof. apply existsb_app. Qed.

Lemma no_request_logged s evs :
  List.filter is_remote_request evs = [] -> no_request s (logged s evs).
Proof. intros E. unfold no_request. now rewrite new_calls_logged. Qed.

(** Every run of [submit_payment] either fails - it returns the sentinel,
    leaves the registry alone, and no submission was acknowledged - or hands
    back the id of an acknowledged submission and drops the identifier. *)
Lemma submit_payment_cases w s id pending :
  let r := submit_payment w id pending s in
  (fst r = Ok (VStr "")
   /\ _open_payments (self (snd r)) = _open_payments (self s)
   /\ existsb (acknowledged w) (new_calls s (snd r)) = false
   /\ no_request s (snd r))
  \/ (exists srv tx response txid,
        server_submit_transaction w srv tx = Ok response
        /\ py_getitem response "id" = Ok txid
        /\ fst r = Ok txid
        /\ _open_payments (self (snd r)) = delete (KStr id) (_open_payments (self s))
        /\ new_calls s (snd r) = balance_calls (self s) ++ [EvSubmitTransaction srv tx]).
Proof.
  intros r. assert (E : r = submit_payment w id pending s) by reflexivity.
  clearbody r.
  destruct (balance_calls_quiet w (self s)) as [Hq1 Hq2].
  destruct (resolve_payment id pending (_open_payments (self s)))
    as [payment|] eqn:Hr.
  2:{ rewrite (submit_payment_idle _ _ _ _ Hr) in E. subst r. left. simpl.
      unfold no_request. rewrite new_calls_same. auto. }
  rewrite (submit_payment_resolved _ _ _ _ _ Hr) in E. cbv zeta in E.
  assert (Hfail : forall p,
    _open_payments p = _open_payments (self s) ->
    r = (Ok (VStr ""), {| self := p; calls := calls s ++ balance_calls (self s) |}) ->
    fst r = Ok (VStr "")
    /\ _open_payments (self (snd r)) = _open_payments (self s)
    /\ existsb (acknowledged w) (new_calls s (snd r)) = false
    /\ no_request s (snd r)).
  { intros p Hp ->. simpl. unfold no_request. rewrite new_calls_app. auto. }
  destruct (gate w (self s) payment) as [[|]|e];
    [left; apply (Hfail (self s)); [reflexivity | exact E] | |
     left; apply (Hfail (self s)); [reflexivity | exact E]].
  rewrite build_spec in E.
  destruct (_validate_payment_data payment) as [[|]|e];
    [| left; apply (Hfail (self s)); [reflexivity | exact E]
     | left; apply (Hfail (self s)); [reflexivity | exact E]].
  simpl self in E.
  destruct (payment_builder (self s) payment) as [b|e];
    [| left; apply (Hfail (self s)); [reflexivity | exact E]].
  destruct (sdk_rejects w b) as [e|];
    [left; apply (Hfail (self s)); [reflexivity | exact E]|].
  destruct (_account (self s)) as [a|] eqn:Ha;
    [| left; apply (Hfail (self s)); [reflexivity | exact E]].
  rewrite submit_transaction_spec in E. simpl in E.
  destruct (_keypair (self s)) as [kp|];
    [| left; eapply Hfail; [|exact E]; reflexivity].
  destruct (_server (self s)) as [srv|];
    [| left; eapply Hfail; [|exact E]; reflexivity].
  set (tx := sign kp (transaction_of a b)) in *.
  destruct (server_submit_transaction w srv tx) as [response|e] eqn:Hs;
    simpl in E.
  2:{ subst r. left. simpl. unfold no_request, logged. simpl.
      rewrite <- app_assoc.
      rewrite new_calls_app, existsb_app_event, Hq1, List.filter_app, Hq2. simpl.
      rewrite Hs. auto. }
  destruct (py_getitem response "id") as [txid|e] eqn:Hid; simpl in E.
  2:{ subst r. left. simpl. unfold no_request, logged. simpl.
      rewrite <- app_assoc.
      rewrite new_calls_app, existsb_app_event, Hq1, List.filter_app, Hq2. simpl.
      rewrite Hs. simpl. rewrite Hid. auto. }
  right. exists srv, tx, response, txid.
  split; [exact Hs|]. split; [exact Hid|].
  unfold registered in E. simpl in E.
  destruct (_open_payments (self s) !! KStr id) eqn:Hreg; subst r; simpl.
  - split; [reflexivity|]. split; [reflexivity|].
    rewrite <- List.app_assoc. apply new_calls_app.
  - split; [reflexivity|]. split; [now rewrite delete_id|].
    unfold logged. simpl. rewrite <- List.app_assoc. apply new_calls_app.
Qed.

(** ** The gateway operations and [initialize] *)

Lemma make_request_spec w s m u j :
  let req := {| method := m; url := u; json := j; headers := api_headers (self s) |} in
  _make_request w m u j s = (api_result w req, logged s [EvRequest req]).
Proof.
  unfold _make_request, api_result, api_headers. run.
  destruct (requests_request w _) as [v|e]; [reflexivity|].
  destruct (is_RequestException e); reflexivity.
Qed.

Lemma complete_payment_spec w s id txid :
  let req := complete_request (self s) id txid in
  complete_payment w id txid s =
    (Ok (match requests_request w req with Ok _ => true | Raise _ => false end),
     logged s [EvRequest req]).
Proof.
  unfold complete_payment, complete_request. run.
  rewrite make_request_spec. unfold api_result. simpl.
  destruct (requests_request w _); reflexivity.
Qed.

Lemma cancel_payment_spec w s id :
  let req := cancel_request (self s) id in
  cancel_payment w id s =
    (Ok (match requests_request w req with Ok _ => true | Raise _ => false end),
     logged s [EvRequest req]).
Proof.
  unfold cancel_payment, cancel_request. run.
  rewrite make_request_spec. unfold api_result. simpl.
  destruct (requests_request w _); reflexivity.
Qed.

Lemma get_incomplete_server_payments_spec w s :
  let req := incomplete_request (self s) in
  get_incomplete_server_payments w s =
    (Ok (match (let? response := api_result w req in
                py_get response "incomplete_server_payments" (VList [])) with
         | Ok v => v
         | Raise _ => VList []
         end),
     logged s [EvRequest req]).
Proof.
  unfold get_incomplete_server_payments, incomplete_request. run.
  rewrite make_request_spec. simpl.
  destruct (api_result w _) as [v|e]; simpl; [|reflexivity].
  destruct (py_get v _ _); reflexivity.
Qed.

Lemma initialize_spec w s api seed net :
  initialize w api seed net s =
    if _validate_private_seed_format seed then
      let p0 := set_api_key api (self s) in
      match Keypair_from_secret w seed with
      | Raise _ => (Ok false, {| self := p0; calls := calls s |})
      | Ok kp =>
          let srv := {| horizon_url := network_url net |} in
          let p1 := set_server (Some srv) (set_keypair (Some kp) p0) in
          let c1 := calls s ++ [EvLoadAccount srv (public_key kp)] in
          match server_load_account w srv (public_key kp) with
          | Raise _ => (Ok false, {| self := p1; calls := c1 |})
          | Ok acct =>
              let p2 := set_network net
                          (set_base_url (network_url net)
                             (set_account (Some acct) p1)) in
              let c2 := c1 ++ [EvFetchBaseFee srv] in
              match server_fetch_base_fee w srv with
              | Raise _ => (Ok false, {| self := p2; calls := c2 |})
              | Ok fee => (Ok true, {| self := set_fee fee p2; calls := c2 |})
              end
          end
      end
    else (Ok false, s).
Proof.
  unfold initialize, _load_account.
  destruct (_validate_private_seed_format seed); run; [|reflexivity].
  destruct (Keypair_from_secret w seed) as [kp|e]; simpl; [|reflexivity].
  destruct (server_load_account w _ _) as [acct|e]; simpl; [|reflexivity].
  destruct (server_fetch_base_fee w _) as [fee|e]; reflexivity.
Qed.

Lemma create_payment_cases w s pd :
  let r := create_payment w pd s in
  (fst r = Ok (VStr "") /\ self (snd r) = self s)
  \/ (exists response identifier snapshot k,
        _validate_payment_data pd = Ok true
        /\ gate w (self s) pd = Ok false
        /\ requests_request w (create_request (self s) pd) = Ok response
        /\ response_identifier response = Ok identifier
        /\ py_truthy identifier = true
        /\ response_snapshot response = Ok snapshot
        /\ hash_key identifier = Ok k
        /\ fst r = Ok identifier
        /\ self (snd r) = set_open_payments
                            (<[k := snapshot]> (_open_payments (self s))) (self s)).
Proof.
  intros r. assert (E : r = create_payment w pd s) by reflexivity. clearbody r.
  destruct (_validate_payment_data pd) as [[|]|e] eqn:Hv.
  2,3: rewrite create_payment_invalid in E by congruence; subst r; left; auto.
  destruct (gate w (self s) pd) as [[|]|e] eqn:Hg.
  1,3: rewrite create_payment_gate_closed in E by congruence; subst r; left; auto.
  rewrite (create_payment_gate_open _ _ _ Hv Hg) in E. cbv zeta in E.
  unfold api_result, registration in E.
  destruct (requests_request w _) as [response|e] eqn:Hreq; simpl in E;
    [|subst r; left; auto].
  destruct (response_identifier response) as [i|e] eqn:Hi; simpl in E;
    [|subst r; left; auto].
  destruct (py_truthy i) eqn:Ht; simpl in E; [|subst r; left; auto].
  destruct (response_snapshot response) as [snap|e] eqn:Hsn; simpl in E;
    [|subst r; left; auto].
  destruct (hash_key i) as [k|e] eqn:Hk; simpl in E; [|subst r; left; auto].
  subst r. right. exists response, i, snap, k. simpl. auto 10.
Qed.

(** ** Properties of the lifecycle *)

(** C7. An intent dictionary that lacks one of the six required fields makes
    [create_payment] return the empty text with the session and the call log
    exactly as they were: neither the balance query nor the create request is
    made. *)
Theorem create_payment_fail_fast w s d field :
  In field required_fields ->
  dict_lookup field d = None ->
  create_payment w (VDict d) s = (Ok (VStr ""), s).
Proof.
  intros Hf Hnone. apply create_payment_invalid.
  rewrite (validate_dict_missing _ _ Hf Hnone). discriminate.
Qed.

(** C4, as the code has it.  Validation of an intent dictionary succeeds
    exactly when the six required fields are present as keys, whatever their
    values; [create_payment] returns an identifier, and
    [_build_a2u_transaction] a transaction, only for an intent that passes
    it. *)
Theorem required_fields_are_checked_for_presence w s d :
  (_validate_payment_data (VDict d) = Ok true
   <-> forall f, In f required_fields -> is_Some (dict_lookup f d))
  /\ (fst (create_payment w (VDict d) s) <> Ok (VStr "") ->
      forall f, In f required_fields -> is_Some (dict_lookup f d))
  /\ (forall tx, fst (_build_a2u_transaction w (VDict d) s) = Ok tx ->
      forall f, In f required_fields -> is_Some (dict_lookup f d)).
Proof.
  split; [apply validate_dict_true|]. split.
  - intros Hne. apply validate_dict_true.
    destruct (create_payment_cases w s (VDict d)) as [[Hr _]|Hok].
    + contradiction.
    + destruct Hok as (? & ? & ? & ? & Hv & _). exact Hv.
  - intros tx Hb. apply validate_dict_true. rewrite build_spec in Hb.
    destruct (_validate_payment_data (VDict d)) as [[|]|e];
      [reflexivity | discriminate | discriminate].
Qed.

(** C1. With [total] the total cost computed from the intent's amount and the
    cached fee, and [balance] what [get_balance] returns: if [total > balance]
    the result is the empty text, no request goes to the payment API and the
    session is unchanged; if not, and the intent passes validation, the create
    request is sent, right after the balance query. *)
Theorem create_payment_balance_gate w s pd amount total balance :
  py_getitem pd "amount" = Ok amount ->
  total_cost amount (_fee (self s)) = Ok total ->
  fst (get_balance w s) = Ok balance ->
  let r := create_payment w pd s in
  (dec_gt total balance = Ok true ->
     fst r = Ok (VStr "") /\ no_request s (snd r) /\ self (snd r) = self s)
  /\ (dec_gt total balance = Ok false ->
      _validate_payment_data pd = Ok true ->
      new_calls s (snd r)
      = balance_calls (self s) ++ [EvRequest (create_request (self s) pd)]).
Proof.
  intros Ha Ht Hb r. rewrite get_balance_spec in Hb. injection Hb as <-.
  assert (Hgate : gate w (self s) pd = dec_gt total (balance_of w (self s))).
  { unfold gate. rewrite Ha. simpl. now rewrite Ht. }
  subst r. split.
  - intros Hgt.
    destruct (_validate_payment_data pd) as [[|]|e] eqn:Hv.
    2,3: rewrite create_payment_invalid by congruence; simpl;
         unfold no_request; rewrite new_calls_same; auto.
    rewrite create_payment_gate_closed by congruence. simpl.
    split; [reflexivity|]. split; [|reflexivity].
    apply no_request_logged, (balance_calls_quiet w).
  - intros Hgt Hv. rewrite Hgt in Hgate.
    rewrite (create_payment_gate_open _ _ _ Hv Hgate). cbv zeta.
    destruct (let? response := api_result w _ in registration response)
      as [[v [[k snap]|]]|e]; simpl.
    + apply new_calls_app.
    + apply new_calls_logged.
    + apply new_calls_logged.
Qed.

Lemma submit_payment_gate_closed w s id pending payment :
  resolve_payment id pending (_open_payments (self s)) = Some payment ->
  gate w (self s) payment <> Ok false ->
  submit_payment w id pending s
  = (Ok (VStr ""), logged s (balance_calls (self s))).
Proof.
  intros Hr Hg. rewrite (submit_payment_resolved _ _ _ _ _ Hr). cbv zeta.
  destruct (gate w (self s) payment) as [[|]|e]; congruence.
Qed.

Lemma submit_payment_gate_open w s id pending payment b a kp srv :
  resolve_payment id pending (_open_payments (self s)) = Some payment ->
  gate w (self s) payment = Ok false ->
  _validate_payment_data payment = Ok true ->
  payment_builder (self s) payment = Ok b ->
  sdk_rejects w b = None ->
  _account (self s) = Some a ->
  _keypair (self s) = Some kp ->
  _server (self s) = Some srv ->
  let tx := sign kp (transaction_of a b) in
  let r := submit_payment w id pending s in
  fst r = match (let? response := server_submit_transaction w srv tx in
                 py_getitem response "id") with
          | Ok txid => Ok txid
          | Raise _ => Ok (VStr "")
          end
  /\ new_calls s (snd r) = balance_calls (self s) ++ [EvSubmitTransaction srv tx].
Proof.
  intros Hr Hg Hv Hb Hsdk Ha Hk Hsrv tx r.
  assert (E : r = submit_payment w id pending s) by reflexivity. clearbody r.
  rewrite (submit_payment_resolved _ _ _ _ _ Hr) in E. cbv zeta in E.
  rewrite Hg, build_spec, Hv in E. simpl self in E.
  rewrite Hb, Hsdk, Ha, submit_transaction_spec in E. simpl in E.
  rewrite Hk, Hsrv in E. fold tx in E. unfold logged in E. simpl in E.
  rewrite <- List.app_assoc in E.
  destruct (let? response := server_submit_transaction w srv tx in
            py_getitem response "id") as [txid|e].
  - destruct (registered id _); subst r; simpl;
      (split; [reflexivity | apply new_calls_app]).
  - subst r. simpl. split; [reflexivity | apply new_calls_app].
Qed.

(** C10. The gate compares with [>]: when the total cost compares as equal
    to the balance, [create_payment] sends the create request for a valid
    intent, and [submit_payment] hands the signed transaction to the node for
    a payment the SDK builds; when it compares as greater, both return the
    empty text after the balance query alone. *)
Theorem gate_is_strict w s amount total balance c :
  total_cost amount (_fee (self s)) = Ok total ->
  fst (get_balance w s) = Ok balance ->
  dec_cmp total balance = Ok c ->
  (c = Eq ->
     (forall pd,
        py_getitem pd "amount" = Ok amount ->
        _validate_payment_data pd = Ok true ->
        In (EvRequest (create_request (self s) pd))
           (new_calls s (snd (create_payment w pd s))))
     /\ (forall id pending payment b a kp srv,
           resolve_payment id pending (_open_payments (self s)) = Some payment ->
           py_getitem payment "amount" = Ok amount ->
           _validate_payment_data payment = Ok true ->
           payment_builder (self s) payment = Ok b ->
           sdk_rejects w b = None ->
           _account (self s) = Some a ->
           _keypair (self s) = Some kp ->
           _server (self s) = Some srv ->
           In (EvSubmitTransaction srv (sign kp (transaction_of a b)))
              (new_calls s (snd (submit_payment w id pending s)))))
  /\ (c = Gt ->
      (forall pd,
         py_getitem pd "amount" = Ok amount ->
         _validate_payment_data pd = Ok true ->
         create_payment w pd s
         = (Ok (VStr ""), logged s (balance_calls (self s))))
      /\ (forall id pending payment,
            resolve_payment id pending (_open_payments (self s)) = Some payment ->
            py_getitem payment "amount" = Ok amount ->
            submit_payment w id pending s
            = (Ok (VStr ""), logged s (balance_calls (self s))))).
Proof.
  intros Ht Hb Hc. rewrite get_balance_spec in Hb. injection Hb as <-.
  assert (Hgate : forall payment,
            py_getitem payment "amount" = Ok amount ->
            gate w (self s) payment
            = Ok (match c with Gt => true | _ => false end)).
  { intros payment Ha. unfold gate, dec_gt. rewrite Ha. simpl. rewrite Ht.
    simpl. now rewrite Hc. }
  split; intros ->.
  - split.
    + intros pd Ha Hv.
      generalize (create_payment_gate_open _ _ _ Hv (Hgate _ Ha)). cbv zeta.
      intros ->.
      destruct (let? response := api_result w _ in registration response)
        as [[v [[k snap]|]]|e]; simpl;
        first [rewrite new_calls_app | rewrite new_calls_logged];
        apply in_or_app; right; left; reflexivity.
    + intros id pending payment b a kp srv Hr Ha Hv Hbd Hsdk Hacc Hk Hsrv.
      destruct (submit_payment_gate_open _ _ _ _ _ _ _ _ _
                  Hr (Hgate _ Ha) Hv Hbd Hsdk Hacc Hk Hsrv) as [_ ->].
      apply in_or_app. right. left. reflexivity.
  - split.
    + intros pd Ha Hv. apply create_payment_gate_closed; [exact Hv|].
      rewrite (Hgate _ Ha). discriminate.
    + intros id pending payment Hr Ha.
      apply (submit_payment_gate_closed _ _ _ _ _ Hr).
      rewrite (Hgate _ Ha). discriminate.
Qed.

(** C2. After [submit_payment], a result other than the empty text means the
    identifier is no longer in the registry.  A call in which no submission
    was acknowledged by the node - the gate closed, the build failed, the
    node refused - returns the empty text and leaves the registry as it was;
    and as long as the node never acknowledges with an empty id, the empty
    text alone tells that the registry is as it was. *)
Theorem submit_payment_registry w s id pending :
  let r := submit_payment w id pending s in
  (fst r <> Ok (VStr "") -> _open_payments (self (snd r)) !! KStr id = None)
  /\ (existsb (acknowledged w) (new_calls s (snd r)) = false ->
      fst r = Ok (VStr "")
      /\ _open_payments (self (snd r)) = _open_payments (self s))
  /\ ((forall srv tx response,
         server_submit_transaction w srv tx = Ok response ->
         py_getitem response "id" <> Ok (VStr "")) ->
      fst r = Ok (VStr "") ->
      _open_payments (self (snd r)) = _open_payments (self s)).
Proof.
  intros r.
  pose proof (submit_payment_cases w s id pending) as Hc. cbv zeta in Hc.
  fold r in Hc. destruct Hc as [Hfail|Hok].
  - destruct Hfail as (Hr & Hreg & _ & _). split; [contradiction|]. auto.
  - destruct Hok as (srv & tx & response & txid & Hs & Hid & Hr & Hreg & Hnew).
    split; [intros _; rewrite Hreg; apply lookup_delete_eq|]. split.
    + intros Hack. rewrite Hnew, existsb_app_event in Hack. simpl in Hack.
      rewrite Hs in Hack. simpl in Hack. rewrite Hid in Hack.
      rewrite orb_true_r in Hack. discriminate.
    + intros Hids Hempty. rewrite Hr in Hempty. injection Hempty as ->.
      destruct (Hids _ _ _ Hs Hid).
Qed.

Lemma perform_registry w s c :
  match c with
  | CallCreatePayment _ | CallSubmitPayment _ _ => True
  | _ => _open_payments (self (perform w c s)) = _open_payments (self s)
  end.
Proof.
  destruct c; simpl; try exact I.
  - rewrite initialize_spec.
    destruct (_validate_private_seed_format _); [|reflexivity].
    cbv zeta. destruct (Keypair_from_secret w _); [|reflexivity].
    destruct (server_load_account w _ _); [|reflexivity].
    destruct (server_fetch_base_fee w _); reflexivity.
  - now rewrite get_balance_spec.
  - now rewrite complete_payment_spec.
  - now rewrite cancel_payment_spec.
  - now rewrite get_incomplete_server_payments_spec.
Qed.

(** C3. Whenever a public operation changes what the registry holds under a
    key, the operation is either a [create_payment] whose request the payment
    API answered with that identifier - the key then holds the snapshot - or a
    [submit_payment] of that identifier which the node acknowledged - the key
    is then gone.  [complete_payment] and [cancel_payment] leave the registry
    as it was, whatever the API answers. *)
Theorem registry_mutations w s :
  (forall c k,
     let s' := perform w c s in
     _open_payments (self s') !! k <> _open_payments (self s) !! k ->
     (exists pd response identifier snapshot,
        c = CallCreatePayment pd
        /\ requests_request w (create_request (self s) pd) = Ok response
        /\ response_identifier response = Ok identifier
        /\ py_truthy identifier = true
        /\ hash_key identifier = Ok k
        /\ _open_payments (self s') !! k = Some snapshot)
     \/ (exists id pending,
           c = CallSubmitPayment id pending
           /\ k = KStr id
           /\ existsb (acknowledged w) (new_calls s s') = true
           /\ _open_payments (self s') !! k = None))
  /\ (forall id txid,
        _open_payments (self (snd (complete_payment w id txid s)))
        = _open_payments (self s))
  /\ (forall id,
        _open_payments (self (snd (cancel_payment w id s)))
        = _open_payments (self s)).
Proof.
  split; [|split].
  - intros c k s' Hne. subst s'.
    pose proof (perform_registry w s c) as Hsame.
    destruct c as [? ? ?| |pd|id pending|? ?|?|];
      try (rewrite Hsame in Hne; contradiction); clear Hsame; simpl in *.
    + left. pose proof (create_payment_cases w s pd) as Hc. cbv zeta in Hc.
      destruct Hc as [[_ Hself]|Hok].
      * rewrite Hself in Hne. contradiction.
      * destruct Hok as (response & i & snap & k0 & _ & _ & Hreq & Hi & Ht
                         & _ & Hk & _ & Hself).
        rewrite Hself in *. simpl in *.
        destruct (decide (k0 = k)) as [->|Hk0].
        -- exists pd, response, i, snap. rewrite lookup_insert_eq. auto 10.
        -- rewrite lookup_insert_ne in Hne by exact Hk0. contradiction.
    + right. pose proof (submit_payment_cases w s id pending) as Hc.
      cbv zeta in Hc. destruct Hc as [(_ & Hreg & _)|Hok].
      * rewrite Hreg in Hne. contradiction.
      * destruct Hok as (srv & tx & response & txid & Hs & Hid & _ & Hreg & Hnew).
        rewrite Hreg in *.
        destruct (decide (KStr id = k)) as [<-|Hk0].
        -- exists id, pending. rewrite lookup_delete_eq, Hnew, existsb_app_event.
           simpl. rewrite Hs. simpl. rewrite Hid, orb_true_r. auto.
        -- rewrite lookup_delete_ne in Hne by exact Hk0. contradiction.
  - intros id txid. now rewrite complete_payment_spec.
  - intros id. now rewrite cancel_payment_spec.
Qed.

Lemma balance_of_down w p e :
  query_balances w p = Raise e -> balance_of w p = dec_of_int 0.
Proof. intros Hq. unfold balance_of. now rewrite Hq. Qed.

(** C5, as the code has it.  No public lifecycle operation raises.  Failed
    validation, a failed request to the payment API and a node that refuses
    the submission each give the operation's sentinel.  A failed balance query
    raises nothing in [create_payment] and [submit_payment]: the balance is
    then zero, and the sentinel is returned when the total cost is greater
    than zero. *)
Theorem failures_become_sentinels w s :
  (forall pd,
     let r := create_payment w pd s in
     (exists v s', r = (Ok v, s'))
     /\ (_validate_payment_data pd <> Ok true -> fst r = Ok (VStr ""))
     /\ (forall e, requests_request w (create_request (self s) pd) = Raise e ->
                   fst r = Ok (VStr ""))
     /\ (forall e amount total,
           query_balances w (self s) = Raise e ->
           py_getitem pd "amount" = Ok amount ->
           total_cost amount (_fee (self s)) = Ok total ->
           dec_gt total (dec_of_int 0) = Ok true ->
           fst r = Ok (VStr "")))
  /\ (forall id pending,
        let r := submit_payment w id pending s in
        (exists v s', r = (Ok v, s'))
        /\ (forall payment,
              resolve_payment id pending (_open_payments (self s)) = Some payment ->
              _validate_payment_data payment <> Ok true ->
              fst r = Ok (VStr ""))
        /\ ((forall srv tx, exists e, server_submit_transaction w srv tx = Raise e) ->
            fst r = Ok (VStr ""))
        /\ (forall e payment amount total,
              query_balances w (self s) = Raise e ->
              resolve_payment id pending (_open_payments (self s)) = Some payment ->
              py_getitem payment "amount" = Ok amount ->
              total_cost amount (_fee (self s)) = Ok total ->
              dec_gt total (dec_of_int 0) = Ok true ->
              fst r = Ok (VStr "")))
  /\ (forall id txid,
        let r := complete_payment w id txid s in
        (exists b s', r = (Ok b, s'))
        /\ (forall e, requests_request w (complete_request (self s) id txid) = Raise e ->
                      fst r = Ok false))
  /\ (forall id,
        let r := cancel_payment w id s in
        (exists b s', r = (Ok b, s'))
        /\ (forall e, requests_request w (cancel_request (self s) id) = Raise e ->
                      fst r = Ok false))
  /\ (let r := get_incomplete_server_payments w s in
      (exists v s', r = (Ok v, s'))
      /\ (forall e, requests_request w (incomplete_request (self s)) = Raise e ->
                    fst r = Ok (VList []))).
Proof.
  repeat apply conj.
  - intros pd r. subst r.
    pose proof (create_payment_cases w s pd) as Hc. cbv zeta in Hc.
    repeat apply conj.
    + destruct (create_payment w pd s) as [res s'].
      destruct Hc as [[Hr _]|(? & i & ? & ? & _ & _ & _ & _ & _ & _ & _ & Hr & _)];
        simpl in Hr; subst res; eauto.
    + intros Hv. now rewrite create_payment_invalid.
    + intros e He.
      destruct Hc as [[Hr _]|(? & ? & ? & ? & _ & _ & Hreq & _)];
        [exact Hr | congruence].
    + intros e amount total Hq Ha Ht Hgt.
      destruct Hc as [[Hr _]|(? & ? & ? & ? & _ & Hg & _)]; [exact Hr|].
      unfold gate in Hg. rewrite Ha in Hg. simpl in Hg. rewrite Ht in Hg.
      simpl in Hg. rewrite (balance_of_down _ _ _ Hq) in Hg. congruence.
  - intros id pending r. subst r.
    pose proof (submit_payment_cases w s id pending) as Hc. cbv zeta in Hc.
    repeat apply conj.
    + destruct (submit_payment w id pending s) as [res s'].
      destruct Hc as [[Hr _]|(? & ? & ? & ? & _ & _ & Hr & _)];
        simpl in Hr; subst res; eauto.
    + intros payment Hr Hv.
      rewrite (submit_payment_resolved _ _ _ _ _ Hr). cbv zeta.
      destruct (gate w (self s) payment) as [[|]|e]; try reflexivity.
      rewrite build_spec.
      destruct (_validate_payment_data payment) as [[|]|e];
        [congruence | reflexivity | reflexivity].
    + intros Hdown.
      destruct Hc as [[Hr _]|(srv & tx & ? & ? & Hs & _)]; [exact Hr|].
      destruct (Hdown srv tx) as [e He]. congruence.
    + intros e payment amount total Hq Hr Ha Ht Hgt.
      rewrite submit_payment_gate_closed with (payment := payment);
        [reflexivity | exact Hr |].
      unfold gate. rewrite Ha. simpl. rewrite Ht. simpl.
      rewrite (balance_of_down _ _ _ Hq). congruence.
  - intros id txid r. subst r. rewrite complete_payment_spec.
    split; [eauto | intros e He; simpl; now rewrite He].
  - intros id r. subst r. rewrite cancel_payment_spec.
    split; [eauto | intros e He; simpl; now rewrite He].
  - rewrite get_incomplete_server_payments_spec. eauto.
  - intros e He. rewrite get_incomplete_server_payments_spec. simpl.
    unfold api_result. now rewrite He.
Qed.

Lemma sign_keeps kp tx :
  tx_memo (sign kp tx) = tx_memo tx
  /\ tx_operations (sign kp tx) = tx_operations tx
  /\ tx_timeout (sign kp tx) = tx_timeout tx
  /\ tx_signers (sign kp tx) = tx_signers tx ++ [kp].
Proof. unfold sign. simpl. auto. Qed.

(** C6. For an intent that passes validation, in an initialized session and
    with arguments the SDK accepts, [_build_a2u_transaction] returns a
    transaction whose memo is the text memo of the intent's identifier, whose
    only operation pays [str(amount)] of the native asset to the intent's
    [to_address], and whose timeout is 180; [_submit_transaction] hands that
    transaction to the node signed by the session's key pair, and by nothing
    else. *)
Theorem transaction_contract w s data identifier to_address amount a kp srv :
  _validate_payment_data data = Ok true ->
  py_getitem data "identifier" = Ok identifier ->
  py_getitem data "to_address" = Ok to_address ->
  py_getitem data "amount" = Ok amount ->
  _account (self s) = Some a ->
  _keypair (self s) = Some kp ->
  _server (self s) = Some srv ->
  sdk_rejects w
    (set_timeout 180
       (append_payment_op to_address Native (py_str amount)
          (add_text_memo identifier
             (new_builder (Some a) (_network (self s)) (_fee (self s))))))
  = None ->
  exists tx s1,
    _build_a2u_transaction w data s = (Ok tx, s1)
    /\ tx_memo tx = Some (TextMemo identifier)
    /\ tx_operations tx = [Payment to_address Native (py_str amount)]
    /\ tx_timeout tx = Some 180
    /\ tx_signers tx = []
    /\ new_calls s1 (snd (_submit_transaction w tx s1))
       = [EvSubmitTransaction srv (sign kp tx)]
    /\ tx_signers (sign kp tx) = [kp]
    /\ tx_memo (sign kp tx) = Some (TextMemo identifier)
    /\ tx_operations (sign kp tx) = [Payment to_address Native (py_str amount)]
    /\ tx_timeout (sign kp tx) = Some 180.
Proof.
  intros Hv Hi Hto Ham Ha Hk Hsrv Hsdk.
  rewrite build_spec, Hv. unfold payment_builder.
  rewrite Hi, Hto, Ham. simpl. rewrite Ha, Hsdk.
  eexists. eexists. split; [reflexivity|].
  rewrite submit_transaction_spec. simpl. rewrite Hk, Hsrv. simpl.
  rewrite new_calls_logged. auto 12.
Qed.

(** C9, as the code has it.  [initialize] never raises.  When it fails on the
    seed's format the session is untouched.  When it fails later, what was
    assigned before the failing step stays assigned: the API key once the
    format is accepted; the key pair and the server handle once the key pair is
    derived; the account, the base URL and the network name once the account
    is loaded.  Only the fee and the registry are as before in every failure. *)
Theorem initialize_failure_state w s api seed net :
  let r := initialize w api seed net s in
  let srv := {| horizon_url := network_url net |} in
  (exists b s', r = (Ok b, s'))
  /\ (_validate_private_seed_format seed = false -> r = (Ok false, s))
  /\ (forall e,
        _validate_private_seed_format seed = true ->
        Keypair_from_secret w seed = Raise e ->
        r = (Ok false, {| self := set_api_key api (self s); calls := calls s |}))
  /\ (forall kp e,
        _validate_private_seed_format seed = true ->
        Keypair_from_secret w seed = Ok kp ->
        server_load_account w srv (public_key kp) = Raise e ->
        r = (Ok false,
             {| self := set_server (Some srv)
                          (set_keypair (Some kp) (set_api_key api (self s)));
                calls := calls s ++ [EvLoadAccount srv (public_key kp)] |}))
  /\ (forall kp acct e,
        _validate_private_seed_format seed = true ->
        Keypair_from_secret w seed = Ok kp ->
        server_load_account w srv (public_key kp) = Ok acct ->
        server_fetch_base_fee w srv = Raise e ->
        r = (Ok false,
             {| self := set_network net
                          (set_base_url (network_url net)
                             (set_account (Some acct)
                                (set_server (Some srv)
                                   (set_keypair (Some kp)
                                      (set_api_key api (self s))))));
                calls := (calls s ++ [EvLoadAccount srv (public_key kp)])
                         ++ [EvFetchBaseFee srv] |}))
  /\ (fst r = Ok false ->
      _fee (self (snd r)) = _fee (self s)
      /\ _open_payments (self (snd r)) = _open_payments (self s)).
Proof.
  intros r srv. subst r srv. rewrite initialize_spec.
  destruct (_validate_private_seed_format seed).
  2:{ repeat apply conj; eauto; try discriminate. }
  cbv zeta.
  destruct (Keypair_from_secret w seed) as [kp|e1].
  2:{ repeat apply conj; eauto; try discriminate. }
  destruct (server_load_account w _ (public_key kp)) as [acct|e2] eqn:Hload.
  2:{ repeat apply conj; eauto; try discriminate.
      - intros kp' e _ [= <-] _. reflexivity.
      - intros kp' acct e _ [= <-]. rewrite Hload. discriminate. }
  destruct (server_fetch_base_fee w _) as [fee|e3] eqn:Hfee.
  - repeat apply conj; eauto; try discriminate.
    + intros kp' e _ [= <-]. rewrite Hload. discriminate.
  - repeat apply conj; eauto; try discriminate.
    + intros kp' e _ [= <-]. rewrite Hload. discriminate.
    + intros kp' acct' e _ [= <-]. rewrite Hload. intros [= <-] _. reflexivity.
Qed.
(** ** Further properties of the methods *)



(** X2. [initialize] returns true exactly when the seed has the accepted
    format and key derivation, account load and fee fetch all succeed; the
    session then holds the new API key, key pair, server handle, account, base
    URL, network name and fee, with the registry as it was, and the node was
    called twice: account load, then fee fetch. *)
Theorem initialize_success w s api seed net :
  let r := initialize w api seed net s in
  let srv := {| horizon_url := network_url net |} in
  (fst r = Ok true
   <-> _validate_private_seed_format seed = true
       /\ exists kp acct fee,
            Keypair_from_secret w seed = Ok kp
            /\ server_load_account w srv (public_key kp) = Ok acct
            /\ server_fetch_base_fee w srv = Ok fee)
  /\ (forall kp acct fee,
        _validate_private_seed_format seed = true ->
        Keypair_from_secret w seed = Ok kp ->
        server_load_account w srv (public_key kp) = Ok acct ->
        server_fetch_base_fee w srv = Ok fee ->
        r = (Ok true,
             {| self := initialized (self s) api net kp acct fee;
                calls := calls s ++ [EvLoadAccount srv (public_key kp);
                                     EvFetchBaseFee srv] |})).
Proof.
  intros r srv. subst r srv. rewrite initialize_spec.
  destruct (_validate_private_seed_format seed).
  2:{ split; [split; [discriminate | intros [E _]; discriminate E]
             | intros ? ? ? E; discriminate E]. }
  cbv zeta.
  destruct (Keypair_from_secret w seed) as [kp|e1].
  2:{ split; [split; [discriminate | intros [_ (? & ? & ? & E & _)]; discriminate E]
             | intros ? ? ? _ E; discriminate E]. }
  destruct (server_load_account w _ (public_key kp)) as [acct|e2] eqn:Hload.
  2:{ split; [split; [discriminate|] | ].
      - intros [_ (kp' & ? & ? & [= <-] & E & _)]. congruence.
      - intros kp' ? ? _ [= <-] E. congruence. }
  destruct (server_fetch_base_fee w _) as [fee|e3] eqn:Hfee.
  2:{ split; [split; [discriminate|] | ].
      - intros [_ (kp' & ? & ? & _ & _ & E)]. discriminate E.
      - intros kp' ? ? _ _ _ E. discriminate E. }
  split.
  - split; [intros _; split; [reflexivity | eauto 10] | reflexivity].
  - intros kp' acct' fee' _ [= <-]. rewrite Hload. intros [= <-] [= <-].
    simpl. rewrite <- List.app_assoc. reflexivity.
Qed.

Lemma network_url_cases net :
  (net = "Pi Network" /\ network_url net = MAINNET_URL)
  \/ (net <> "Pi Network" /\ network_url net = TESTNET_URL).
Proof.
  unfold network_url. destruct (String.eqb net "Pi Network") eqn:E.
  - left. apply String.eqb_eq in E. auto.
  - right. apply String.eqb_neq in E. auto.
Qed.

(** X3. After a successful [initialize] the server handle and the base URL
    name the same host: the main network's for the network name
    ["Pi Network"], compared exactly, and the test network's for any other
    name. *)
Theorem initialize_selects_network w s api seed net :
  fst (initialize w api seed net s) = Ok true ->
  let p := self (snd (initialize w api seed net s)) in
  _server p = Some {| horizon_url := _base_url p |}
  /\ _network p = net
  /\ (net = "Pi Network" -> _base_url p = MAINNET_URL)
  /\ (net <> "Pi Network" -> _base_url p = TESTNET_URL)
  /\ MAINNET_URL <> TESTNET_URL.
Proof.
  rewrite initialize_spec.
  destruct (_validate_private_seed_format seed); [|discriminate]. cbv zeta.
  destruct (Keypair_from_secret w seed) as [kp|e1]; [|discriminate].
  destruct (server_load_account w _ _) as [acct|e2]; [|discriminate].
  destruct (server_fetch_base_fee w _) as [fee|e3]; [|discriminate].
  intros _. simpl.
  destruct (network_url_cases net) as [[Hn ->]|[Hn ->]];
    repeat split; try reflexivity; try congruence; discriminate.
Qed.

Lemma first_native_none items :
  Forall not_native items -> first_native items = Ok (dec_of_int 0).
Proof.
  induction 1 as [|x items [t [Hx Hn]] _ IH]; simpl; [reflexivity|].
  rewrite Hx. simpl. now rewrite Hn.
Qed.

Lemma first_native_untyped pre entry post e :
  Forall not_native pre ->
  py_getitem entry "asset_type" = Raise e ->
  first_native (pre ++ entry :: post) = Raise e.
Proof.
  intros Hpre He. induction Hpre as [|x pre [t [Hx Hn]] _ IH]; simpl.
  - now rewrite He.
  - rewrite Hx. simpl. now rewrite Hn.
Qed.

(** X4. When the node's answer lists no native entry - an empty list
    included - [get_balance] returns [Decimal(0)]. *)
Theorem get_balance_without_native w s items :
  query_balances w (self s) = Ok items ->
  Forall not_native items ->
  fst (get_balance w s) = Ok (dec_of_int 0).
Proof.
  intros Hq Hall. rewrite get_balance_spec. simpl. unfold balance_of.
  rewrite Hq. simpl. now rewrite (first_native_none _ Hall).
Qed.

(** X5. An entry without an ["asset_type"] hides whatever follows it: the
    loop raises on it, and [get_balance] returns [Decimal(0)] even when a
    native entry comes later in the answer. *)
Theorem get_balance_untyped_entry w s pre entry post e :
  query_balances w (self s) = Ok (pre ++ entry :: post) ->
  Forall not_native pre ->
  py_getitem entry "asset_type" = Raise e ->
  fst (get_balance w s) = Ok (dec_of_int 0).
Proof.
  intros Hq Hpre He. rewrite get_balance_spec. simpl. unfold balance_of.
  rewrite Hq. simpl. now rewrite (first_native_untyped _ _ _ _ Hpre He).
Qed.

Lemma balance_calls_no_server p : _server p = None -> balance_calls p = [].
Proof. intros E. unfold balance_calls. now rewrite E. Qed.

Lemma balance_of_no_server w p : _server p = None -> balance_of w p = dec_of_int 0.
Proof. intros E. unfold balance_of, query_balances. now rewrite E. Qed.

(** X6. In a session without a server handle, as [__init__] leaves it, no
    call leaves the process for the balance: [get_balance] returns
    [Decimal(0)], and [create_payment] and [submit_payment] return the empty
    text for any payment whose total cost is above zero, all three with the
    session and the call log as they were. *)
Theorem uninitialized_session_is_quiet w s :
  _server (self s) = None ->
  get_balance w s = (Ok (dec_of_int 0), s)
  /\ (forall pd amount total,
        py_getitem pd "amount" = Ok amount ->
        total_cost amount (_fee (self s)) = Ok total ->
        dec_gt total (dec_of_int 0) = Ok true ->
        create_payment w pd s = (Ok (VStr ""), s))
  /\ (forall id pending amount total,
        py_getitem pending "amount" = Ok amount ->
        total_cost amount (_fee (self s)) = Ok total ->
        dec_gt total (dec_of_int 0) = Ok true ->
        submit_payment w id pending s = (Ok (VStr ""), s)).
Proof.
  intros Hsrv.
  assert (Hlog : logged s (balance_calls (self s)) = s).
  { rewrite (balance_calls_no_server _ Hsrv). apply logged_nil. }
  assert (Hgate : forall payment amount total,
            py_getitem payment "amount" = Ok amount ->
            total_cost amount (_fee (self s)) = Ok total ->
            dec_gt total (dec_of_int 0) = Ok true ->
            gate w (self s) payment <> Ok false).
  { intros payment amount total Ha Ht Hgt. unfold gate. rewrite Ha. simpl.
    rewrite Ht. simpl. rewrite (balance_of_no_server _ _ Hsrv). congruence. }
  repeat apply conj.
  - rewrite get_balance_spec, Hlog. now rewrite (balance_of_no_server _ _ Hsrv).
  - intros pd amount total Ha Ht Hgt.
    destruct (_validate_payment_data pd) as [[|]|e] eqn:Hv.
    2,3: apply create_payment_invalid; congruence.
    rewrite create_payment_gate_closed; [now rewrite Hlog | exact Hv | eauto].
  - intros id pending amount total Ha Ht Hgt.
    destruct (resolve_payment id pending (_open_payments (self s)))
      as [payment|] eqn:Hr.
    2:{ apply submit_payment_idle. exact Hr. }
    rewrite (submit_payment_gate_closed _ _ _ _ _ Hr); [now rewrite Hlog|].
    unfold resolve_payment in Hr.
    destruct (py_truthy pending) eqn:Hp.
    + injection Hr as <-. eauto.
    + destruct pending as [| | | |[|]|[|]]; try discriminate Ha;
        discriminate Hp.
Qed.

Lemma submit_payment_nothing_to_submit_aux w s id pending :
  _open_payments (self s) !! KStr id = None ->
  py_truthy pending = false ->
  submit_payment w id pending s = (Ok (VStr ""), s).
Proof.
  intros Hreg Hp. apply submit_payment_idle. unfold resolve_payment.
  now rewrite Hp.
Qed.

(** X7. With an identifier the registry does not hold and no intent passed in
    - [None], or an empty dictionary, which counts as none - [submit_payment]
    returns the empty text at once: no balance query, no ledger call, session
    and call log as they were. *)
Theorem submit_payment_nothing_to_submit w s id pending :
  _open_payments (self s) !! KStr id = None ->
  py_truthy pending = false ->
  submit_payment w id pending s = (Ok (VStr ""), s).
Proof.
  intros Hreg Hp. unfold submit_payment, registered. run.
  now rewrite Hreg, Hp.
Qed.

Lemma submit_payment_no_request w s id pending :
  no_request s (snd (submit_payment w id pending s)).
Proof.
  pose proof (submit_payment_cases w s id pending) as Hc. cbv zeta in Hc.
  destruct Hc as [(_ & _ & _ & Hn)|(srv & tx & ? & ? & _ & _ & _ & _ & Hnew)];
    [exact Hn|].
  unfold no_request. rewrite Hnew, List.filter_app.
  rewrite (proj2 (balance_calls_quiet w (self s))). reflexivity.
Qed.

(** X8. When [create_payment] returns a text identifier, the registry holds
    the API's snapshot under it, and a following [submit_payment] with that
    identifier and no intent works on that snapshot: it sends nothing to the
    payment API, and the transaction it hands to the node, when the gate is
    open and the SDK builds it, is the one built from the snapshot. *)
Theorem create_then_submit w s pd id :
  fst (create_payment w pd s) = Ok (VStr id) ->
  id <> "" ->
  let s1 := snd (create_payment w pd s) in
  exists response snapshot,
    requests_request w (create_request (self s) pd) = Ok response
    /\ response_snapshot response = Ok snapshot
    /\ _open_payments (self s1) !! KStr id = Some snapshot
    /\ (forall w', no_request s1 (snd (submit_payment w' id VNone s1)))
    /\ (forall w' b a kp srv,
          gate w' (self s1) snapshot = Ok false ->
          _validate_payment_data snapshot = Ok true ->
          payment_builder (self s1) snapshot = Ok b ->
          sdk_rejects w' b = None ->
          _account (self s1) = Some a ->
          _keypair (self s1) = Some kp ->
          _server (self s1) = Some srv ->
          new_calls s1 (snd (submit_payment w' id VNone s1))
          = balance_calls (self s1)
            ++ [EvSubmitTransaction srv (sign kp (transaction_of a b))]).
Proof.
  intros Hr Hid s1. subst s1.
  pose proof (create_payment_cases w s pd) as Hc. cbv zeta in Hc.
  destruct Hc as [[Hempty _]|Hok].
  { rewrite Hr in Hempty. congruence. }
  destruct Hok as (response & i & snap & k & _ & _ & Hreq & _ & _ & Hsn & Hk
                   & Hres & Hself).
  rewrite Hr in Hres. injection Hres as <-. simpl in Hk. injection Hk as <-.
  exists response, snap.
  assert (Hreg : _open_payments (self (snd (create_payment w pd s))) !! KStr id
                 = Some snap).
  { rewrite Hself. simpl. apply lookup_insert_eq. }
  repeat apply conj; try assumption.
  - intros w'. apply submit_payment_no_request.
  - intros w' b a kp srv Hg Hv Hb Hsdk Ha Hkp Hsrv.
    apply (submit_payment_gate_open w' _ id VNone snap b a kp srv);
      assumption.
Qed.

(** X9. A payment submitted from the registry is not submitted again: after a
    [submit_payment] that returned a transaction id, a further
    [submit_payment] of the same identifier without an intent returns the
    empty text and makes no call. *)
Theorem submit_payment_not_twice w w' s id pending pending' :
  fst (submit_payment w id pending s) <> Ok (VStr "") ->
  py_truthy pending' = false ->
  let s1 := snd (submit_payment w id pending s) in
  submit_payment w' id pending' s1 = (Ok (VStr ""), s1).
Proof.
  intros Hne Hp s1. subst s1. apply submit_payment_nothing_to_submit_aux.
  - pose proof (submit_payment_cases w s id pending) as Hc. cbv zeta in Hc.
    destruct Hc as [(Hr & _)|(? & ? & ? & ? & _ & _ & _ & Hreg & _)];
      [contradiction|].
    rewrite Hreg. apply lookup_delete_eq.
  - exact Hp.
Qed.

Lemma submit_payment_gate_open_registry w s id pending payment b a kp srv :
  resolve_payment id pending (_open_payments (self s)) = Some payment ->
  gate w (self s) payment = Ok false ->
  _validate_payment_data payment = Ok true ->
  payment_builder (self s) payment = Ok b ->
  sdk_rejects w b = None ->
  _account (self s) = Some a ->
  _keypair (self s) = Some kp ->
  _server (self s) = Some srv ->
  let tx := sign kp (transaction_of a b) in
  _open_payments (self (snd (submit_payment w id pending s)))
  = match (let? response := server_submit_transaction w srv tx in
           py_getitem response "id") with
    | Ok _ => delete (KStr id) (_open_payments (self s))
    | Raise _ => _open_payments (self s)
    end.
Proof.
  intros Hr Hg Hv Hb Hsdk Ha Hk Hsrv tx.
  rewrite (submit_payment_resolved _ _ _ _ _ Hr). cbv zeta.
  rewrite Hg, build_spec, Hv. simpl self.
  rewrite Hb, Hsdk, Ha, submit_transaction_spec. simpl.
  rewrite Hk, Hsrv. fold tx.
  destruct (let? response := server_submit_transaction w srv tx in
            py_getitem response "id") as [txid|e]; [|reflexivity].
  unfold registered. simpl.
  destruct (_open_payments (self s) !! KStr id) eqn:Hreg; simpl;
    [reflexivity | now rewrite delete_id].
Qed.

(** X10. An intent passed to [submit_payment] is the one submitted, whatever
    the registry holds under the identifier and whether it holds anything:
    the transaction handed to the node is built from the passed intent, and
    when the node answers with an id that id is returned and the identifier
    is dropped from the registry. *)
Theorem submit_payment_explicit_intent w s id pending b a kp srv :
  py_truthy pending = true ->
  gate w (self s) pending = Ok false ->
  _validate_payment_data pending = Ok true ->
  payment_builder (self s) pending = Ok b ->
  sdk_rejects w b = None ->
  _account (self s) = Some a ->
  _keypair (self s) = Some kp ->
  _server (self s) = Some srv ->
  let tx := sign kp (transaction_of a b) in
  let r := submit_payment w id pending s in
  new_calls s (snd r) = balance_calls (self s) ++ [EvSubmitTransaction srv tx]
  /\ (forall response txid,
        server_submit_transaction w srv tx = Ok response ->
        py_getitem response "id" = Ok txid ->
        fst r = Ok txid
        /\ _open_payments (self (snd r)) = delete (KStr id) (_open_payments (self s))).
Proof.
  intros Hp Hg Hv Hb Hsdk Ha Hk Hsrv tx r.
  assert (Hr : resolve_payment id pending (_open_payments (self s)) = Some pending).
  { unfold resolve_payment. now rewrite Hp. }
  destruct (submit_payment_gate_open _ _ _ _ _ _ _ _ _ Hr Hg Hv Hb Hsdk Ha Hk Hsrv)
    as [Hres Hnew].
  pose proof (submit_payment_gate_open_registry _ _ _ _ _ _ _ _ _
                Hr Hg Hv Hb Hsdk Ha Hk Hsrv) as Hreg.
  cbv zeta in Hreg. fold tx in Hres, Hnew, Hreg. fold r in Hres, Hnew, Hreg.
  split; [exact Hnew|].
  intros response txid Hs Hid. rewrite Hs in Hres, Hreg. simpl in Hres, Hreg.
  rewrite Hid in Hres, Hreg. auto.
Qed.

(** X11. When the node accepts the transaction and its answer carries no
    ["id"], [submit_payment] returns the empty text and keeps the registry
    entry, although the transaction went to the ledger. *)
Theorem submit_payment_answer_without_id w s id pending payment b a kp srv response e :
  resolve_payment id pending (_open_payments (self s)) = Some payment ->
  gate w (self s) payment = Ok false ->
  _validate_payment_data payment = Ok true ->
  payment_builder (self s) payment = Ok b ->
  sdk_rejects w b = None ->
  _account (self s) = Some a ->
  _keypair (self s) = Some kp ->
  _server (self s) = Some srv ->
  let tx := sign kp (transaction_of a b) in
  server_submit_transaction w srv tx = Ok response ->
  py_getitem response "id" = Raise e ->
  let r := submit_payment w id pending s in
  fst r = Ok (VStr "")
  /\ _open_payments (self (snd r)) = _open_payments (self s)
  /\ In (EvSubmitTransaction srv tx) (new_calls s (snd r)).
Proof.
  intros Hr Hg Hv Hb Hsdk Ha Hk Hsrv tx Hs Hid r.
  destruct (submit_payment_gate_open _ _ _ _ _ _ _ _ _ Hr Hg Hv Hb Hsdk Ha Hk Hsrv)
    as [Hres Hnew].
  pose proof (submit_payment_gate_open_registry _ _ _ _ _ _ _ _ _
                Hr Hg Hv Hb Hsdk Ha Hk Hsrv) as Hreg.
  cbv zeta in Hreg. fold tx in Hres, Hnew, Hreg. fold r in Hres, Hnew, Hreg.
  rewrite Hs in Hres, Hreg. simpl in Hres, Hreg. rewrite Hid in Hres, Hreg.
  repeat split; try assumption.
  rewrite Hnew. apply in_or_app. right. left. reflexivity.
Qed.

(** X12. An amount the decimal constructor rejects makes [create_payment]
    return the empty text after the balance query: the node is asked, the
    payment API is not, and the session is unchanged. *)
Theorem create_payment_bad_amount w s pd amount e :
  _validate_payment_data pd = Ok true ->
  py_getitem pd "amount" = Ok amount ->
  Decimal amount = Raise e ->
  create_payment w pd s = (Ok (VStr ""), logged s (balance_calls (self s))).
Proof.
  intros Hv Ha Hd. apply create_payment_gate_closed; [exact Hv|].
  unfold gate, total_cost. rewrite Ha. simpl. rewrite Hd. discriminate.
Qed.

Lemma create_payment_answered w s pd response :
  _validate_payment_data pd = Ok true ->
  gate w (self s) pd = Ok false ->
  requests_request w (create_request (self s) pd) = Ok response ->
  let r := create_payment w pd s in
  match registration response with
  | Ok (v, Some (k, snapshot)) =>
      fst r = Ok v
      /\ self (snd r) = set_open_payments
                          (<[k := snapshot]> (_open_payments (self s))) (self s)
  | Ok (v, None) => fst r = Ok v /\ self (snd r) = self s
  | Raise _ => fst r = Ok (VStr "") /\ self (snd r) = self s
  end.
Proof.
  intros Hv Hg Hreq r. subst r.
  rewrite (create_payment_gate_open _ _ _ Hv Hg). cbv zeta.
  unfold api_result. rewrite Hreq. simpl.
  destruct (registration response) as [[v [[k snap]|]]|e]; simpl; auto.
Qed.

(** X13. How [create_payment] reads the API's answer, a dictionary [d].  The
    identifier is the one at the top level when that one is non-empty, else
    the one inside ["payment"]; the registry entry written under it is the
    ["payment"] object when the answer has a non-empty one, else the whole
    answer.  An answer with no identifier at either place, or with one that
    cannot be a dictionary key, gives the empty text and leaves the session
    as it was, although the request was made. *)
Theorem create_payment_reads_answer w s pd d :
  _validate_payment_data pd = Ok true ->
  gate w (self s) pd = Ok false ->
  requests_request w (create_request (self s) pd) = Ok (VDict d) ->
  let r := create_payment w pd s in
  let absent (o : option PyVal) := from_option py_truthy false o = false in
  let stored := match dict_lookup "payment" d with
                | Some p => if py_truthy p then p else VDict d
                | None => VDict d
                end in
  (forall i k,
     dict_lookup "identifier" d = Some i -> py_truthy i = true ->
     hash_key i = Ok k ->
     fst r = Ok i
     /\ self (snd r) = set_open_payments
                         (<[k := stored]> (_open_payments (self s))) (self s))
  /\ (forall inner i k,
        absent (dict_lookup "identifier" d) ->
        dict_lookup "payment" d = Some (VDict inner) ->
        dict_lookup "identifier" inner = Some i -> py_truthy i = true ->
        hash_key i = Ok k ->
        fst r = Ok i
        /\ self (snd r) = set_open_payments
                            (<[k := VDict inner]> (_open_payments (self s))) (self s))
  /\ (absent (dict_lookup "identifier" d) ->
      (dict_lookup "payment" d = None
       \/ exists inner, dict_lookup "payment" d = Some (VDict inner)
                        /\ absent (dict_lookup "identifier" inner)) ->
      fst r = Ok (VStr "") /\ self (snd r) = self s)
  /\ (forall i e,
        dict_lookup "identifier" d = Some i -> py_truthy i = true ->
        hash_key i = Raise e ->
        fst r = Ok (VStr "") /\ self (snd r) = self s).
Proof.
  intros Hv Hg Hreq r absent stored.
  pose proof (create_payment_answered _ _ _ _ Hv Hg Hreq) as Ha.
  cbv zeta in Ha. fold r in Ha.
  unfold registration, response_identifier, response_snapshot, py_or in Ha.
  simpl in Ha. subst absent stored. repeat apply conj.
  - intros i k Hi Ht Hk. rewrite Hi in Ha. simpl in Ha. rewrite Ht in Ha.
    simpl in Ha. rewrite Ht, Hk in Ha.
    destruct (dict_lookup "payment" d) as [q|]; simpl in Ha; exact Ha.
  - intros p i k Habs Hp Hi Ht Hk.
    destruct (dict_lookup "identifier" d) as [i0|]; simpl in Habs, Ha;
      [rewrite Habs in Ha|]; rewrite Hp in Ha; simpl in Ha;
      rewrite Hi in Ha; simpl in Ha; rewrite Ht, Hk in Ha;
      (destruct p; [discriminate Hi | exact Ha]).
  - intros Habs Hpay.
    destruct (dict_lookup "identifier" d) as [i0|]; simpl in Habs, Ha;
      [rewrite Habs in Ha|];
      (destruct Hpay as [Hp|(p & Hp & Hpi)]; rewrite Hp in Ha; simpl in Ha;
       [exact Ha|];
       destruct (dict_lookup "identifier" p) as [i1|]; simpl in Hpi, Ha;
       [rewrite Hpi in Ha|]; exact Ha).
  - intros i e Hi Ht Hk. rewrite Hi in Ha. simpl in Ha. rewrite Ht in Ha.
    simpl in Ha. rewrite Ht, Hk in Ha.
    destruct (dict_lookup "payment" d) as [q|]; simpl in Ha; exact Ha.
Qed.

(** X14. [get_incomplete_server_payments] sends one GET request and leaves
    the session alone.  From an answer that is a dictionary it returns what
    is under ["incomplete_server_payments"], whatever that is, and the empty
    list when the key is missing; from an answer that is no dictionary it
    returns the empty list. *)
Theorem incomplete_payments_result w s :
  let req := incomplete_request (self s) in
  let r := get_incomplete_server_payments w s in
  snd r = logged s [EvRequest req]
  /\ (forall d v,
        requests_request w req = Ok (VDict d) ->
        dict_lookup "incomplete_server_payments" d = Some v ->
        fst r = Ok v)
  /\ (forall d,
        requests_request w req = Ok (VDict d) ->
        dict_lookup "incomplete_server_payments" d = None ->
        fst r = Ok (VList []))
  /\ (forall v,
        requests_request w req = Ok v ->
        (forall d, v <> VDict d) ->
        fst r = Ok (VList [])).
Proof.
  intros req r. subst r. rewrite get_incomplete_server_payments_spec.
  cbv zeta. fold req. unfold api_result. simpl. repeat apply conj.
  - reflexivity.
  - intros d v -> Hv. simpl. now rewrite Hv.
  - intros d -> Hv. simpl. now rewrite Hv.
  - intros v -> Hnd. destruct v; simpl; try reflexivity.
    destruct (Hnd d). reflexivity.
Qed.

(** X15. [complete_payment] sends one POST to
    [<base>/v2/payments/<identifier>/complete] with the session's key, with
    the body [{'txid': txid}] for a non-empty [txid] and [{}] for [None] or
    the empty text; it returns true exactly when the client returns an
    answer, whatever the answer says, and leaves the session alone. *)
Theorem complete_payment_request w s id txid :
  let req := {| method := "POST";
                url := _base_url (self s) +:+ "/v2/payments/" +:+ id +:+ "/complete";
                json := Some (VDict (if py_truthy txid then [("txid", txid)] else []));
                headers := [("Authorization", "Key " +:+ _api_key (self s));
                            ("Content-Type", "application/json")] |} in
  let r := complete_payment w id txid s in
  snd r = logged s [EvRequest req]
  /\ (fst r = Ok true <-> exists v, requests_request w req = Ok v)
  /\ (fst r = Ok false <-> exists e, requests_request w req = Raise e).
Proof.
  intros req r. subst r. rewrite complete_payment_spec. cbv zeta.
  assert (Hreq : complete_request (self s) id txid = req).
  { unfold complete_request, api_headers. subst req.
    destruct (py_truthy txid); reflexivity. }
  rewrite Hreq. simpl. split; [reflexivity|].
  destruct (requests_request w req) as [v|e]; split; split;
    try discriminate; eauto; intros [? E]; discriminate E.
Qed.

(** X16. [cancel_payment] sends one POST to
    [<base>/v2/payments/<identifier>/cancel] with the session's key and an
    empty body; it returns true exactly when the client returns an answer,
    and leaves the session, the registry included, alone. *)
Theorem cancel_payment_request w s id :
  let req := {| method := "POST";
                url := _base_url (self s) +:+ "/v2/payments/" +:+ id +:+ "/cancel";
                json := Some (VDict []);
                headers := [("Authorization", "Key " +:+ _api_key (self s));
                            ("Content-Type", "application/json")] |} in
  let r := cancel_payment w id s in
  snd r = logged s [EvRequest req]
  /\ (fst r = Ok true <-> exists v, requests_request w req = Ok v)
  /\ (fst r = Ok false <-> exists e, requests_request w req = Raise e).
Proof.
  intros req r. subst r. rewrite cancel_payment_spec. cbv zeta.
  change (cancel_request (self s) id) with req. simpl.
  split; [reflexivity|].
  destruct (requests_request w req) as [v|e]; split; split;
    try discriminate; eauto; intros [? E]; discriminate E.
Qed.

(** What each operation adds to the call log. *)
Lemma submit_payment_calls w s id pending :
  exists evs,
    calls (snd (submit_payment w id pending s)) = calls s ++ evs
    /\ (evs = [] \/ evs = balance_calls (self s)
        \/ exists srv tx, evs = balance_calls (self s) ++ [EvSubmitTransaction srv tx]).
Proof.
  set (r := submit_payment w id pending s).
  assert (E : r = submit_payment w id pending s) by reflexivity. clearbody r.
  destruct (resolve_payment id pending (_open_payments (self s)))
    as [payment|] eqn:Hr.
  2:{ rewrite (submit_payment_idle _ _ _ _ Hr) in E. subst r. exists [].
      simpl. rewrite app_nil_r. auto. }
  rewrite (submit_payment_resolved _ _ _ _ _ Hr) in E. cbv zeta in E.
  assert (Hbc : forall p,
    r = (Ok (VStr ""), {| self := p; calls := calls s ++ balance_calls (self s) |}) ->
    exists evs, calls (snd r) = calls s ++ evs
      /\ (evs = [] \/ evs = balance_calls (self s)
          \/ exists srv tx, evs = balance_calls (self s) ++ [EvSubmitTransaction srv tx])).
  { intros p ->. exists (balance_calls (self s)). simpl. auto. }
  destruct (gate w (self s) payment) as [[|]|e];
    [apply (Hbc (self s)), E | | apply (Hbc (self s)), E].
  rewrite build_spec in E.
  destruct (_validate_payment_data payment) as [[|]|e];
    [| apply (Hbc (self s)), E | apply (Hbc (self s)), E].
  simpl self in E.
  destruct (payment_builder (self s) payment) as [b|e];
    [| apply (Hbc (self s)), E].
  destruct (sdk_rejects w b) as [e|]; [apply (Hbc (self s)), E|].
  destruct (_account (self s)) as [a|]; [| apply (Hbc (self s)), E].
  rewrite submit_transaction_spec in E. simpl in E.
  destruct (_keypair (self s)) as [kp|]; [| eapply Hbc, E].
  destruct (_server (self s)) as [srv|]; [| eapply Hbc, E].
  exists (balance_calls (self s) ++ [EvSubmitTransaction srv (sign kp (transaction_of a b))]).
  split; [|eauto].
  destruct (let? response := server_submit_transaction w srv _ in
            py_getitem response "id") as [txid|e];
    [destruct (registered id _)|]; subst r; simpl;
    now rewrite <- List.app_assoc.
Qed.

Lemma create_payment_calls w s pd :
  exists evs,
    calls (snd (create_payment w pd s)) = calls s ++ evs
    /\ (evs = [] \/ evs = balance_calls (self s)
        \/ evs = balance_calls (self s) ++ [EvRequest (create_request (self s) pd)]).
Proof.
  destruct (_validate_payment_data pd) as [[|]|e] eqn:Hv.
  2,3: rewrite create_payment_invalid by congruence; exists []; simpl;
       rewrite app_nil_r; auto.
  destruct (gate w (self s) pd) as [[|]|e] eqn:Hg.
  1,3: rewrite create_payment_gate_closed by congruence;
       exists (balance_calls (self s)); simpl; auto.
  rewrite (create_payment_gate_open _ _ _ Hv Hg). cbv zeta.
  exists (balance_calls (self s) ++ [EvRequest (create_request (self s) pd)]).
  split; [|auto].
  destruct (let? response := api_result w _ in registration response)
    as [[v [[k snap]|]]|e]; reflexivity.
Qed.

Lemma initialize_calls w s api seed net :
  exists evs,
    calls (snd (initialize w api seed net s)) = calls s ++ evs
    /\ (evs = []
        \/ exists srv id, evs = [EvLoadAccount srv id]
                          \/ evs = [EvLoadAccount srv id; EvFetchBaseFee srv]).
Proof.
  rewrite initialize_spec.
  destruct (_validate_private_seed_format seed);
    [|exists []; simpl; rewrite app_nil_r; auto].
  cbv zeta. destruct (Keypair_from_secret w seed) as [kp|e1];
    [|exists []; simpl; rewrite app_nil_r; auto].
  destruct (server_load_account w _ _) as [acct|e2];
    [|eexists; simpl; split; [reflexivity|]; right; eauto].
  destruct (server_fetch_base_fee w _) as [fee|e3];
    (eexists; simpl; split; [rewrite <- List.app_assoc; reflexivity|];
     right; eexists; eexists; right; reflexivity).
Qed.

Lemma balance_calls_cases p :
  balance_calls p = [] \/ exists srv id, balance_calls p = [EvAccountsCall srv id].
Proof. unfold balance_calls. destruct (_server p), (_keypair p); eauto. Qed.

Lemma extends_new_calls s s' evs :
  calls s' = calls s ++ evs -> new_calls s s' = evs.
Proof. intros E. unfold new_calls. rewrite E. apply drop_app_length. Qed.

Lemma perform_calls w s c :
  exists evs,
    calls (perform w c s) = calls s ++ evs
    /\ match c with
       | CallInitialize _ _ _ =>
           evs = [] \/ exists srv id, evs = [EvLoadAccount srv id]
                                      \/ evs = [EvLoadAccount srv id; EvFetchBaseFee srv]
       | CallGetBalance => evs = balance_calls (self s)
       | CallCreatePayment pd =>
           evs = [] \/ evs = balance_calls (self s)
           \/ evs = balance_calls (self s) ++ [EvRequest (create_request (self s) pd)]
       | CallSubmitPayment _ _ =>
           evs = [] \/ evs = balance_calls (self s)
           \/ exists srv tx, evs = balance_calls (self s) ++ [EvSubmitTransaction srv tx]
       | CallCompletePayment id txid =>
           evs = [EvRequest (complete_request (self s) id txid)]
       | CallCancelPayment id => evs = [EvRequest (cancel_request (self s) id)]
       | CallGetIncompleteServerPayments =>
           evs = [EvRequest (incomplete_request (self s))]
       end.
Proof.
  destruct c as [k seed n| |pd|id pending|id txid|id|]; simpl perform.
  - apply initialize_calls.
  - rewrite get_balance_spec. eexists. split; reflexivity.
  - apply create_payment_calls.
  - apply submit_payment_calls.
  - rewrite complete_payment_spec. eexists. split; reflexivity.
  - rewrite cancel_payment_spec. eexists. split; reflexivity.
  - rewrite get_incomplete_server_payments_spec. eexists. split; reflexivity.
Qed.

(** X17. Who talks to whom, for every public operation.  The call log only
    grows.  Only [submit_payment] hands a transaction to the node; only
    [create_payment], [complete_payment], [cancel_payment] and
    [get_incomplete_server_payments] send a request to the payment API; only
    [initialize] loads the account or fetches the fee.  No operation sends
    more than one request or hands over more than one transaction. *)
Theorem call_discipline w s c :
  let s' := perform w c s in
  let evs := new_calls s s' in
  calls s' = calls s ++ evs
  /\ (existsb is_submission evs = true ->
      exists id pending, c = CallSubmitPayment id pending)
  /\ (existsb is_remote_request evs = true -> uses_gateway c = true)
  /\ (existsb is_setup_call evs = true ->
      exists k seed n, c = CallInitialize k seed n)
  /\ (length (List.filter is_submission evs) <= 1)%nat
  /\ (length (List.filter is_remote_request evs) <= 1)%nat.
Proof.
  intros s' evs. subst evs s'.
  destruct (perform_calls w s c) as (evs & Hc & Hshape).
  rewrite (extends_new_calls _ _ _ Hc). split; [exact Hc|]. clear Hc.
  destruct (balance_calls_cases (self s)) as [Hbc|(bsrv & bid & Hbc)];
    destruct c as [k seed n| |pd|id pending|id txid|id|];
    rewrite ?Hbc in Hshape.
  all: repeat match goal with
              | H : _ \/ _ |- _ => destruct H
              | H : exists _, _ |- _ => destruct H
              end; subst evs; simpl;
       repeat split; try discriminate; eauto; lia.
Qed.

Lemma prefix_app a b c : String.prefix (a +:+ b) (a +:+ c) = String.prefix b c.
Proof.
  induction a as [|x a IH]; [reflexivity|]. simpl.
  destruct (ascii_dec x x); [exact IH | contradiction].
Qed.

(** X18. Every request an operation sends to the payment API carries the
    session's key in its [Authorization] header and goes to a path under
    [/v2/payments] of the session's base URL, both as they were when the
    operation started. *)
Theorem requests_carry_session_key w s c req :
  In (EvRequest req) (new_calls s (perform w c s)) ->
  headers req = [("Authorization", "Key " +:+ _api_key (self s));
                 ("Content-Type", "application/json")]
  /\ String.prefix (_base_url (self s) +:+ "/v2/payments") (url req) = true.
Proof.
  destruct (perform_calls w s c) as (evs & Hc & Hshape).
  rewrite (extends_new_calls _ _ _ Hc). clear Hc. intros Hin.
  assert (Hnobc : ~ In (EvRequest req) (balance_calls (self s))).
  { destruct (balance_calls_cases (self s)) as [->|(? & ? & ->)];
      simpl; intuition discriminate. }
  destruct c as [k seed n| |pd|id pending|id txid|id|];
    repeat match goal with
           | H : _ \/ _ |- _ => destruct H
           | H : exists _, _ |- _ => destruct H
           end; subst evs;
    repeat match goal with
           | H : In _ (_ ++ _) |- _ => apply in_app_or in H; destruct H
           end;
    try contradiction;
    simpl in *;
    repeat match goal with
           | H : _ \/ _ |- _ => destruct H
           | H : False |- _ => destruct H
           end;
    try discriminate;
    match goal with H : EvRequest _ = EvRequest _ |- _ => injection H as <- end;
    (split; [reflexivity|]); simpl url; rewrite prefix_app;
    try reflexivity.
Qed.

(** X19. The result of [create_payment] tells what happened to the session:
    the empty text means the session is as it was; any other result is a
    non-empty identifier, and the session differs from the old one only in
    the registry, which now holds a snapshot under that identifier. *)
Theorem create_payment_result_matches_registry w s pd :
  let r := create_payment w pd s in
  (fst r = Ok (VStr "") /\ self (snd r) = self s)
  \/ (exists v k snapshot,
        fst r = Ok v
        /\ py_truthy v = true
        /\ hash_key v = Ok k
        /\ self (snd r) = set_open_payments
                            (<[k := snapshot]> (_open_payments (self s))) (self s)
        /\ _open_payments (self (snd r)) !! k = Some snapshot).
Proof.
  intros r. pose proof (create_payment_cases w s pd) as Hc. cbv zeta in Hc.
  fold r in Hc. destruct Hc as [Hfail|Hok]; [left; exact Hfail|].
  destruct Hok as (? & v & snap & k & _ & _ & _ & _ & Ht & _ & Hk & Hr & Hself).
  right. exists v, k, snap. repeat split; try assumption.
  rewrite Hself. simpl. apply lookup_insert_eq.
Qed.

(** X20. Whatever [_build_a2u_transaction] returns was built for the session:
    the data passed validation, the source is the session's account, the
    network passphrase is the session's network name, the base fee is the
    cached fee, and there is exactly one operation; nothing of the session
    but the account changes, and no call is made. *)
Theorem built_transaction_is_the_sessions w s data tx s1 :
  _build_a2u_transaction w data s = (Ok tx, s1) ->
  _validate_payment_data data = Ok true
  /\ (exists a, _account (self s) = Some a /\ tx_source tx = account_id a)
  /\ tx_network_passphrase tx = _network (self s)
  /\ tx_base_fee tx = _fee (self s)
  /\ length (tx_operations tx) = 1%nat
  /\ calls s1 = calls s
  /\ _open_payments (self s1) = _open_payments (self s)
  /\ _keypair (self s1) = _keypair (self s)
  /\ _fee (self s1) = _fee (self s).
Proof.
  rewrite build_spec.
  destruct (_validate_payment_data data) as [[|]|e]; try discriminate.
  unfold payment_builder.
  destruct (py_getitem data "identifier") as [i|e]; simpl; [|discriminate].
  destruct (py_getitem data "to_address") as [t|e]; simpl; [|discriminate].
  destruct (py_getitem data "amount") as [am|e]; simpl; [|discriminate].
  destruct (sdk_rejects w _) as [e|]; [discriminate|].
  destruct (_account (self s)) as [a|]; [|discriminate].
  intros [= <- <-]. simpl. repeat split; eauto.
Qed.

(** X21. Data that lacks a required field makes [_build_a2u_transaction]
    raise [PiNetworkError("Invalid transaction data")] before anything is
    built: the session, the account's sequence number included, and the call
    log are as they were. *)
Theorem build_rejects_incomplete_data w s d field :
  In field required_fields ->
  dict_lookup field d = None ->
  _build_a2u_transaction w (VDict d) s
  = (Raise (PiNetworkError "Invalid transaction data"), s).
Proof.
  intros Hf Hnone. rewrite build_spec.
  now rewrite (validate_dict_missing _ _ Hf Hnone).
Qed.
End Verification.

(** ** The properties on the sample session *)

(** C7 at an intent that has an amount and no memo. *)
Lemma create_payment_fail_fast_witness :
  In "memo" required_fields
  /\ dict_lookup "memo" [("amount", VInt 10)] = None
  /\ create_payment Sample.world (VDict [("amount", VInt 10)]) Sample.session
     = (Ok (VStr ""), Sample.session).
Proof.
  assert (Hf : In "memo" required_fields) by (simpl; tauto).
  assert (Hn : dict_lookup "memo" [("amount", VInt 10)] = None) by reflexivity.
  split; [exact Hf|]. split; [exact Hn|].
  exact (create_payment_fail_fast Sample.world Sample.session _ _ Hf Hn).
Defined.

(** C1 at the sample intent: a cost of 10.00001 against a balance of 100. *)
Lemma create_payment_balance_gate_witness :
  py_getitem Sample.intent "amount" = Ok (VInt 10)
  /\ total_cost (VInt 10) (_fee (self Sample.session)) = Ok (1000001 # 100000)%Q
  /\ fst (get_balance Sample.world Sample.session) = Ok (100 # 1)%Q
  /\ new_calls Sample.session
       (snd (create_payment Sample.world Sample.intent Sample.session))
     = balance_calls (self Sample.session)
       ++ [EvRequest (create_request (self Sample.session) Sample.intent)].
Proof.
  assert (Ha : py_getitem Sample.intent "amount" = Ok (VInt 10)) by reflexivity.
  assert (Ht : total_cost (VInt 10) (_fee (self Sample.session))
               = Ok (1000001 # 100000)%Q) by reflexivity.
  assert (Hb : fst (get_balance Sample.world Sample.session) = Ok (100 # 1)%Q)
    by reflexivity.
  split; [exact Ha|]. split; [exact Ht|]. split; [exact Hb|].
  exact (proj2 (create_payment_balance_gate Sample.world Sample.session
                  Sample.intent _ _ _ Ha Ht Hb) eq_refl eq_refl).
Defined.

(** C10 at a balance of exactly 10.00001. *)
Lemma gate_is_strict_witness :
  total_cost (VInt 10) (_fee (self Sample.session)) = Ok (1000001 # 100000)%Q
  /\ fst (get_balance Sample.world_exact Sample.session) = Ok (1000001 # 100000)%Q
  /\ dec_cmp (1000001 # 100000)%Q (1000001 # 100000)%Q = Ok Eq
  /\ In (EvRequest (create_request (self Sample.session) Sample.intent))
        (new_calls Sample.session
           (snd (create_payment Sample.world_exact Sample.intent Sample.session))).
Proof.
  assert (Ht : total_cost (VInt 10) (_fee (self Sample.session))
               = Ok (1000001 # 100000)%Q) by reflexivity.
  assert (Hb : fst (get_balance Sample.world_exact Sample.session)
               = Ok (1000001 # 100000)%Q) by reflexivity.
  assert (Hc : dec_cmp (1000001 # 100000)%Q (1000001 # 100000)%Q = Ok Eq)
    by reflexivity.
  split; [exact Ht|]. split; [exact Hb|]. split; [exact Hc|].
  exact (proj1 (proj1 (gate_is_strict Sample.world_exact Sample.session
                         _ _ _ _ Ht Hb Hc) eq_refl)
           Sample.intent eq_refl eq_refl).
Defined.

(** C6 at the sample intent. *)
Lemma transaction_contract_witness :
  let kp := {| secret_seed := Sample.seed; public_key := "GPUB" |} in
  let srv := {| horizon_url := TESTNET_URL |} in
  exists tx s1,
    _build_a2u_transaction Sample.world Sample.intent Sample.session = (Ok tx, s1)
    /\ tx_memo tx = Some (TextMemo (VStr "pay1"))
    /\ tx_operations tx = [Payment (VStr "GADDR") Native "10"]
    /\ tx_timeout tx = Some 180
    /\ tx_signers tx = []
    /\ new_calls s1 (snd (_submit_transaction Sample.world tx s1))
       = [EvSubmitTransaction srv (sign kp tx)]
    /\ tx_signers (sign kp tx) = [kp]
    /\ tx_memo (sign kp tx) = Some (TextMemo (VStr "pay1"))
    /\ tx_operations (sign kp tx) = [Payment (VStr "GADDR") Native "10"]
    /\ tx_timeout (sign kp tx) = Some 180.
Proof.
  exact (transaction_contract Sample.world Sample.session Sample.intent
           (VStr "pay1") (VStr "GADDR") (VInt 10)
           {| account_id := "GPUB"; sequence := 7 |}
           {| secret_seed := Sample.seed; public_key := "GPUB" |}
           {| horizon_url := TESTNET_URL |}
           eq_refl eq_refl eq_refl eq_refl eq_refl eq_refl eq_refl eq_refl).
Defined.

(** C4 fails as stated: an intent whose memo is the empty text and whose
    metadata is the empty dictionary passes validation, gets its identifier
    back from [create_payment], and is built into a transaction. *)
Lemma empty_required_field_is_accepted :
  py_getitem Sample.intent_empty_memo "memo" = Ok (VStr "")
  /\ is_empty (VStr "") = true
  /\ _validate_payment_data Sample.intent_empty_memo = Ok true
  /\ fst (create_payment Sample.world Sample.intent_empty_memo Sample.session)
     = Ok (VStr "pay1")
  /\ exists tx,
       fst (_build_a2u_transaction Sample.world Sample.intent_empty_memo
              Sample.session) = Ok tx.
Proof. repeat split. eexists. reflexivity. Qed.

(** C5 fails as stated: the balance query fails, and [create_payment] still
    returns an identifier, for an intent whose total cost is not above zero. *)
Lemma balance_failure_is_not_a_sentinel :
  query_balances Sample.world_node_down (self Sample.session)
  = Raise (LibraryError "ConnectionError")
  /\ fst (get_balance Sample.world_node_down Sample.session) = Ok (0 # 1)%Q
  /\ total_cost (VInt (-1)) (_fee (self Sample.session)) = Ok (-99999 # 100000)%Q
  /\ fst (create_payment Sample.world_node_down Sample.intent_negative
            Sample.session)
     = Ok (VStr "pay1").
Proof. repeat split. Qed.

(** C9 fails as stated: when the account cannot be loaded, [initialize]
    returns false and leaves the new API key, key pair and server handle in
    the session. *)
Lemma failed_initialize_leaves_partial_state :
  let r := initialize Sample.world_no_account "key" Sample.seed "Pi Testnet"
             Sample.fresh in
  fst r = Ok false
  /\ _api_key (self Sample.fresh) = ""
  /\ _api_key (self (snd r)) = "key"
  /\ _keypair (self Sample.fresh) = None
  /\ _keypair (self (snd r))
     = Some {| secret_seed := Sample.seed; public_key := "GPUB" |}
  /\ _server (self Sample.fresh) = None
  /\ _server (self (snd r)) = Some {| horizon_url := TESTNET_URL |}.
Proof. repeat split. Qed.

(** ** The sample session, run *)

Example get_balance_native :
  fst (get_balance Sample.world Sample.session) = Ok (100 # 1)%Q.
Proof. reflexivity. Qed.

Example get_balance_node_down :
  get_balance Sample.world_node_down Sample.session
  = (Ok (0 # 1)%Q, logged Sample.session (balance_calls (self Sample.session))).
Proof. reflexivity. Qed.

Example create_payment_registers :
  fst (create_payment Sample.world Sample.intent Sample.session) = Ok (VStr "pay1")
  /\ _open_payments (self Sample.session_open) !! KStr "pay1" = Some Sample.intent.
Proof. split; reflexivity. Qed.

Example create_payment_blocked :
  create_payment Sample.world_poor Sample.intent Sample.session
  = (Ok (VStr ""), logged Sample.session (balance_calls (self Sample.session))).
Proof. reflexivity. Qed.

Example submit_payment_removes :
  let r := submit_payment Sample.world "pay1" VNone Sample.session_open in
  fst r = Ok (VStr "tx1") /\ _open_payments (self (snd r)) !! KStr "pay1" = None.
Proof. split; reflexivity. Qed.

Example submit_payment_blocked_keeps :
  let r := submit_payment Sample.world_poor "pay1" VNone Sample.session_open in
  fst r = Ok (VStr "")
  /\ _open_payments (self (snd r)) = _open_payments (self Sample.session_open).
Proof. split; reflexivity. Qed.

Example submit_payment_exact_balance :
  fst (submit_payment Sample.world_exact "pay1" VNone Sample.session_open)
  = Ok (VStr "tx1").
Proof. reflexivity. Qed.

Example submit_payment_unknown :
  submit_payment Sample.world "nope" VNone Sample.session
  = (Ok (VStr ""), Sample.session).
Proof. reflexivity. Qed.

Example seed_format :
  _validate_private_seed_format Sample.seed = true
  /\ _validate_private_seed_format "SABC" = false
  /\ _validate_private_seed_format
       "gAAAAAAAAAAAAAAAAAAAAAAAAAAAAAAAAAAAAAAAAAAAAAAAAAAAAAAA" = false.
Proof. repeat split. Qed.

(** ** The further properties on the sample session *)

Lemma initialize_selects_network_witness :
  let r := initialize Sample.world "key" Sample.seed "Pi Network" Sample.fresh in
  fst r = Ok true
  /\ _server (self (snd r)) = Some {| horizon_url := MAINNET_URL |}
  /\ _base_url (self (snd r)) = MAINNET_URL.
Proof.
  assert (Hok : fst (initialize Sample.world "key" Sample.seed "Pi Network"
                       Sample.fresh) = Ok true) by reflexivity.
  pose proof (initialize_selects_network Sample.world Sample.fresh "key"
                Sample.seed "Pi Network" Hok) as (Hsrv & _ & Hmain & _).
  cbv zeta. split; [exact Hok|]. split; [|exact (Hmain eq_refl)].
  rewrite Hsrv, (Hmain eq_refl). reflexivity.
Defined.

Lemma get_balance_without_native_witness :
  let w := Sample.world_answering (VList [Sample.other_asset]) in
  query_balances w (self Sample.session) = Ok [Sample.other_asset]
  /\ Forall not_native [Sample.other_asset]
  /\ fst (get_balance w Sample.session) = Ok (0 # 1)%Q.
Proof.
  assert (Hq : query_balances (Sample.world_answering (VList [Sample.other_asset]))
                 (self Sample.session) = Ok [Sample.other_asset]) by reflexivity.
  assert (Hall : Forall not_native [Sample.other_asset]).
  { constructor; [|constructor].
    exists (VStr "credit_alphanum4"). split; reflexivity. }
  cbv zeta. split; [exact Hq|]. split; [exact Hall|].
  exact (get_balance_without_native _ Sample.session _ Hq Hall).
Defined.

Lemma get_balance_untyped_entry_witness :
  let w := Sample.world_answering
             (VList [Sample.untyped_asset; Sample.native_asset]) in
  query_balances w (self Sample.session)
  = Ok ([] ++ Sample.untyped_asset :: [Sample.native_asset])
  /\ py_getitem Sample.untyped_asset "asset_type" = Raise (KeyError "asset_type")
  /\ py_getitem Sample.native_asset "asset_type" = Ok (VStr "native")
  /\ fst (get_balance w Sample.session) = Ok (0 # 1)%Q.
Proof.
  assert (Hq : query_balances
                 (Sample.world_answering
                    (VList [Sample.untyped_asset; Sample.native_asset]))
                 (self Sample.session)
               = Ok ([] ++ Sample.untyped_asset :: [Sample.native_asset]))
    by reflexivity.
  assert (He : py_getitem Sample.untyped_asset "asset_type"
               = Raise (KeyError "asset_type")) by reflexivity.
  cbv zeta. split; [exact Hq|]. split; [exact He|]. split; [reflexivity|].
  exact (get_balance_untyped_entry _ Sample.session [] _ _ _ Hq
           ltac:(constructor) He).
Defined.

Lemma uninitialized_session_is_quiet_witness :
  _server (self Sample.fresh) = None
  /\ get_balance Sample.world Sample.fresh = (Ok (0 # 1)%Q, Sample.fresh)
  /\ create_payment Sample.world Sample.intent Sample.fresh
     = (Ok (VStr ""), Sample.fresh).
Proof.
  assert (Hs : _server (self Sample.fresh) = None) by reflexivity.
  pose proof (uninitialized_session_is_quiet Sample.world Sample.fresh Hs)
    as (Hb & Hc & _).
  split; [exact Hs|]. split; [exact Hb|].
  exact (Hc Sample.intent (VInt 10) (10 # 1)%Q eq_refl eq_refl eq_refl).
Defined.

Lemma submit_payment_nothing_to_submit_witness :
  _open_payments (self Sample.session) !! KStr "nope" = None
  /\ py_truthy (VDict []) = false
  /\ submit_payment Sample.world "nope" (VDict []) Sample.session
     = (Ok (VStr ""), Sample.session).
Proof.
  assert (Hr : _open_payments (self Sample.session) !! KStr "nope" = None)
    by reflexivity.
  assert (Hp : py_truthy (VDict []) = false) by reflexivity.
  split; [exact Hr|]. split; [exact Hp|].
  exact (submit_payment_nothing_to_submit Sample.world Sample.session _ _ Hr Hp).
Defined.

Lemma create_then_submit_witness :
  fst (create_payment Sample.world Sample.intent Sample.session) = Ok (VStr "pay1")
  /\ exists response snapshot,
       requests_request Sample.world
         (create_request (self Sample.session) Sample.intent) = Ok response
       /\ response_snapshot response = Ok snapshot
       /\ _open_payments (self (snd (create_payment Sample.world Sample.intent
                                       Sample.session))) !! KStr "pay1"
          = Some snapshot.
Proof.
  assert (Hr : fst (create_payment Sample.world Sample.intent Sample.session)
               = Ok (VStr "pay1")) by reflexivity.
  assert (Hid : "pay1" <> "") by discriminate.
  split; [exact Hr|].
  destruct (create_then_submit Sample.world Sample.session Sample.intent "pay1"
              Hr Hid) as (response & snapshot & H1 & H2 & H3 & _).
  exists response, snapshot. auto.
Defined.

Lemma submit_payment_not_twice_witness :
  let r := submit_payment Sample.world "pay1" VNone Sample.session_open in
  fst r = Ok (VStr "tx1")
  /\ submit_payment Sample.world "pay1" VNone (snd r) = (Ok (VStr ""), snd r).
Proof.
  assert (Hne : fst (submit_payment Sample.world "pay1" VNone Sample.session_open)
                <> Ok (VStr "")) by (vm_compute; discriminate).
  cbv zeta. split; [reflexivity|].
  exact (submit_payment_not_twice Sample.world Sample.world Sample.session_open
           "pay1" VNone VNone Hne eq_refl).
Defined.

Lemma submit_payment_explicit_intent_witness :
  let r := submit_payment Sample.world "other" Sample.intent Sample.session in
  _open_payments (self Sample.session) !! KStr "other" = None
  /\ py_truthy Sample.intent = true
  /\ tx_memo (transaction_of Sample.account
                (set_timeout 180
                   (append_payment_op (VStr "GADDR") Native "10"
                      (add_text_memo (VStr "pay1")
                         (new_builder (Some Sample.account) "Pi Testnet" 100)))))
     = Some (TextMemo (VStr "pay1"))
  /\ fst r = Ok (VStr "tx1")
  /\ _open_payments (self (snd r))
     = delete (KStr "other") (_open_payments (self Sample.session)).
Proof.
  cbv zeta. split; [reflexivity|]. split; [reflexivity|]. split; [reflexivity|].
  exact (proj2 (submit_payment_explicit_intent Sample.world Sample.session
                  "other" Sample.intent
                  (set_timeout 180
                     (append_payment_op (VStr "GADDR") Native "10"
                        (add_text_memo (VStr "pay1")
                           (new_builder (Some Sample.account) "Pi Testnet" 100))))
                  Sample.account Sample.keypair Sample.server
                  eq_refl eq_refl eq_refl eq_refl eq_refl eq_refl eq_refl eq_refl)
           (VDict [("id", VStr "tx1")]) (VStr "tx1") eq_refl eq_refl).
Defined.

Lemma submit_payment_answer_without_id_witness :
  let r := submit_payment Sample.world_no_id "pay1" VNone Sample.session_open in
  resolve_payment "pay1" VNone (_open_payments (self Sample.session_open))
  = Some Sample.intent
  /\ fst r = Ok (VStr "")
  /\ _open_payments (self (snd r)) = _open_payments (self Sample.session_open)
  /\ existsb is_submission (new_calls Sample.session_open (snd r)) = true.
Proof.
  assert (Hr : resolve_payment "pay1" VNone
                 (_open_payments (self Sample.session_open))
               = Some Sample.intent) by reflexivity.
  pose proof (submit_payment_answer_without_id Sample.world_no_id
                Sample.session_open "pay1" VNone Sample.intent
                (set_timeout 180
                   (append_payment_op (VStr "GADDR") Native "10"
                      (add_text_memo (VStr "pay1")
                         (new_builder (Some Sample.account) "Pi Testnet" 100))))
                Sample.account Sample.keypair Sample.server
                (VDict [("hash", VStr "abc")]) (KeyError "id")
                Hr eq_refl eq_refl eq_refl eq_refl eq_refl eq_refl eq_refl
                eq_refl eq_refl) as (H1 & H2 & _).
  cbv zeta. split; [exact Hr|]. split; [exact H1|]. split; [exact H2|].
  reflexivity.
Defined.

Lemma create_payment_bad_amount_witness :
  _validate_payment_data Sample.intent_no_amount = Ok true
  /\ py_getitem Sample.intent_no_amount "amount" = Ok VNone
  /\ Decimal VNone = Raise TypeError
  /\ create_payment Sample.world Sample.intent_no_amount Sample.session
     = (Ok (VStr ""),
        logged Sample.session (balance_calls (self Sample.session))).
Proof.
  split; [reflexivity|]. split; [reflexivity|]. split; [reflexivity|].
  exact (create_payment_bad_amount Sample.world Sample.session
           Sample.intent_no_amount VNone TypeError eq_refl eq_refl eq_refl).
Defined.

Lemma create_payment_reads_answer_witness :
  let r := create_payment Sample.world Sample.intent Sample.session in
  requests_request Sample.world
    (create_request (self Sample.session) Sample.intent)
  = Ok (VDict [("payment", Sample.intent)])
  /\ fst r = Ok (VStr "pay1")
  /\ self (snd r)
     = set_open_payments
         (<[KStr "pay1" := Sample.intent]> (_open_payments (self Sample.session)))
         (self Sample.session).
Proof.
  cbv zeta. split; [reflexivity|].
  exact (proj1 (proj2
           (create_payment_reads_answer Sample.world Sample.session
              Sample.intent [("payment", Sample.intent)]
              eq_refl eq_refl eq_refl))
           [("amount", VInt 10); ("memo", VStr "x"); ("metadata", VDict []);
            ("user_uid", VStr "u1"); ("identifier", VStr "pay1");
            ("to_address", VStr "GADDR")]
           (VStr "pay1") (KStr "pay1")
           eq_refl eq_refl eq_refl eq_refl eq_refl).
Defined.

Lemma requests_carry_session_key_witness :
  let req := create_request (self Sample.session) Sample.intent in
  In (EvRequest req)
     (new_calls Sample.session
        (perform Sample.world (CallCreatePayment Sample.intent) Sample.session))
  /\ headers req = [("Authorization", "Key key");
                    ("Content-Type", "application/json")]
  /\ String.prefix "https://api.testnet.minepi.com/v2/payments" (url req) = true.
Proof.
  assert (Hin : In (EvRequest (create_request (self Sample.session) Sample.intent))
                  (new_calls Sample.session
                     (perform Sample.world (CallCreatePayment Sample.intent)
                        Sample.session)))
    by (right; left; reflexivity).
  cbv zeta. split; [exact Hin|].
  exact (requests_carry_session_key Sample.world Sample.session _ _ Hin).
Defined.

Lemma built_transaction_is_the_sessions_witness :
  exists tx s1,
    _build_a2u_transaction Sample.world Sample.intent Sample.session = (Ok tx, s1)
    /\ tx_source tx = "GPUB"
    /\ tx_network_passphrase tx = "Pi Testnet"
    /\ tx_base_fee tx = 100
    /\ length (tx_operations tx) = 1%nat
    /\ calls s1 = calls Sample.session.
Proof.
  eexists. eexists. split; [reflexivity|].
  pose proof (built_transaction_is_the_sessions Sample.world Sample.session
                Sample.intent _ _ eq_refl) as (_ & _ & Hn & Hf & Hl & Hc & _).
  split; [reflexivity|]. split; [exact Hn|]. split; [exact Hf|].
  split; [exact Hl | exact Hc].
Defined.

Lemma build_rejects_incomplete_data_witness :
  In "to_address" required_fields
  /\ dict_lookup "to_address" [("amount", VInt 10)] = None
  /\ _build_a2u_transaction Sample.world (VDict [("amount", VInt 10)])
       Sample.session
     = (Raise (PiNetworkError "Invalid transaction data"), Sample.session).
Proof.
  assert (Hf : In "to_address" required_fields) by (simpl; tauto).
  assert (Hn : dict_lookup "to_address" [("amount", VInt 10)] = None)
    by reflexivity.
  split; [exact Hf|]. split; [exact Hn|].
  exact (build_rejects_incomplete_data Sample.world Sample.session _ _ Hf Hn).
Defined.
